(** * Gsheety: a shallow embedding of the Google Sheets client

    The development follows the JavaScript sources of the repository:
    - [Gsheety]      embeds the current class (the unnamed source file, which
                     also carries [generateTableFromOutput]);
    - [GsheetySrc]   embeds the [get] of [src/gsheety.js];
    - [GsheetyDist]  embeds the [get] of [dist/gsheety.js].

    JavaScript values are an inductive type, thrown errors are an explicit
    outcome, and the network is a function from request URLs to responses,
    threaded through a small monad that also records every request issued. *)

From Stdlib Require Import String Ascii List ZArith Bool Lia DecimalString.
Import ListNotations.

Local Open Scope string_scope.
Local Open Scope Z_scope.

(** ** JavaScript values *)

Module JS.

(** A number is kept as the decimal literal it was read from:
    [mantissa * 10 ^ exponent].  The sources only test numbers for truthiness
    and copy them around; rounding to binary64 (and so underflow to zero) is
    outside the model. *)
Record number := Number { mantissa : Z; exponent : Z }.

(** The values the library handles: what [JSON.parse] produces, plus
    [undefined].  Objects list their own properties in insertion order, keys
    unique.  Strings are sequences of 8-bit units holding the text in a
    UTF-8 style encoding; the characters the sources look for
    (slash, the letter d, the braces) are single units in it. *)
#[warnings="-register-all"]
Inductive value :=
| VUndefined
| VNull
| VBool (b : bool)
| VNum (n : number)
| VStr (s : string)
| VArr (elems : list value)
| VObj (props : list (string * value)).

(** What a function body can do: return or throw. *)
Inductive exn :=
| Error (message : string)
| TypeError
| SyntaxError
| FetchFailed.

Inductive outcome (A : Type) :=
| Returned (a : A)
| Thrown (e : exn).
Arguments Returned {A} a.
Arguments Thrown {A} e.

Definition obind {A B} (x : outcome A) (k : A -> outcome B) : outcome B :=
  match x with
  | Returned a => k a
  | Thrown e => Thrown e
  end.

(** [ToBoolean]. *)
Definition truthy (v : value) : bool :=
  match v with
  | VUndefined | VNull => false
  | VBool b => b
  | VNum n => negb (mantissa n =? 0)
  | VStr s => negb (String.eqb s "")
  | VArr _ | VObj _ => true
  end.

(** The [typeof] operator. *)
Definition typeof (v : value) : string :=
  match v with
  | VUndefined => "undefined"
  | VBool _ => "boolean"
  | VNum _ => "number"
  | VStr _ => "string"
  | VNull | VArr _ | VObj _ => "object"
  end.

(** [v !== null]. *)
Definition not_null (v : value) : bool :=
  match v with
  | VNull => false
  | _ => true
  end.

Definition is_nullish (v : value) : bool :=
  match v with
  | VUndefined | VNull => true
  | _ => false
  end.

(** [Array.isArray]. *)
Definition isArray (v : value) : bool :=
  match v with
  | VArr _ => true
  | _ => false
  end.

Fixpoint lookup (k : string) (props : list (string * value)) : option value :=
  match props with
  | [] => None
  | (k', v) :: rest => if String.eqb k' k then Some v else lookup k rest
  end.

(** Property read [v.k] for the names the sources read
    (table, cols, rows, c, v, label, id, type, raw, clearNull, sheet, query,
    msg, className, callback, ...).  None of them is defined on the built-in
    prototypes, so only own properties of objects answer; reading a property
    of [null] or [undefined] throws. *)
Definition getProp (v : value) (k : string) : outcome value :=
  match v with
  | VUndefined | VNull => Thrown TypeError
  | VObj props =>
      match lookup k props with
      | Some x => Returned x
      | None => Returned VUndefined
      end
  | _ => Returned VUndefined
  end.

(** Optional chaining [v?.k]. *)
Definition getPropOpt (v : value) (k : string) : value :=
  match getProp v k with
  | Returned x => x
  | Thrown _ => VUndefined
  end.

(** Decimal text of a natural number, as a template literal prints an index. *)
Definition string_of_nat (n : nat) : string :=
  NilEmpty.string_of_uint (Nat.to_uint n).

(** Indexed read [v[i]] with a non-negative integer index: an array answers
    with its element, a string with the unit at that place, an object with
    its property named by the decimal index; out of range is [undefined]. *)
Definition getIndex (v : value) (i : nat) : outcome value :=
  match v with
  | VUndefined | VNull => Thrown TypeError
  | VArr elems => Returned (nth i elems VUndefined)
  | VStr s =>
      match String.get i s with
      | Some c => Returned (VStr (String c ""))
      | None => Returned VUndefined
      end
  | VObj props =>
      match lookup (string_of_nat i) props with
      | Some x => Returned x
      | None => Returned VUndefined
      end
  | _ => Returned VUndefined
  end.

(** The receiver of [x.map(f)], [x.filter(f)] or [x.forEach(f)]: only an array
    has these methods (a parsed object cannot hold a function). *)
Definition asArray (v : value) : outcome (list value) :=
  match v with
  | VArr elems => Returned elems
  | _ => Thrown TypeError
  end.

(** [xs.map((x, i) => f x i)] where the callback may throw: elements are
    visited left to right and the first throw aborts the call. *)
Fixpoint mapi_from {A B} (f : A -> nat -> outcome B) (i : nat) (xs : list A)
  : outcome (list B) :=
  match xs with
  | [] => Returned []
  | x :: rest =>
      obind (f x i) (fun y =>
      obind (mapi_from f (S i) rest) (fun ys => Returned (y :: ys)))
  end.

Definition mapi {A B} (f : A -> nat -> outcome B) (xs : list A) : outcome (list B) :=
  mapi_from f 0%nat xs.

(** [xs.map((x, i) => f x i)] with a callback that cannot throw. *)
Fixpoint imap_from {A B} (f : A -> nat -> B) (i : nat) (xs : list A) : list B :=
  match xs with
  | [] => []
  | x :: rest => f x i :: imap_from f (S i) rest
  end.

Definition imap {A B} (f : A -> nat -> B) (xs : list A) : list B :=
  imap_from f 0%nat xs.

(** *** String built-ins *)

Fixpoint indexOf_from (c : ascii) (s : string) (i : Z) : Z :=
  match s with
  | EmptyString => -1
  | String a rest => if Ascii.eqb a c then i else indexOf_from c rest (i + 1)
  end.

(** [s.indexOf(c)] for a one-character needle. *)
Definition indexOf (c : ascii) (s : string) : Z := indexOf_from c s 0.

Fixpoint lastIndexOf_from (c : ascii) (s : string) (i last : Z) : Z :=
  match s with
  | EmptyString => last
  | String a rest =>
      lastIndexOf_from c rest (i + 1) (if Ascii.eqb a c then i else last)
  end.

(** [s.lastIndexOf(c)] for a one-character needle. *)
Definition lastIndexOf (c : ascii) (s : string) : Z := lastIndexOf_from c s 0 (-1).

(** Whether a character occurs in a text. *)
Fixpoint has_char (c : ascii) (s : string) : bool :=
  match s with
  | EmptyString => false
  | String a rest => Ascii.eqb a c || has_char c rest
  end.

(** [s.slice(from, to)]: negative positions count from the end, positions are
    clamped to the text, an empty or reversed range gives the empty text. *)
Definition slice (s : string) (from to : Z) : string :=
  let len := Z.of_nat (String.length s) in
  let clamp := fun p => if p <? 0 then Z.max (len + p) 0 else Z.min p len in
  let a := clamp from in
  let b := clamp to in
  substring (Z.to_nat a) (Z.to_nat (Z.max (b - a) 0)) s.

(** *** Conversion to text *)

Definition sign_text (m : Z) : string := if m <? 0 then "-" else "".

Definition digits_of (n : Z) : string := string_of_nat (Z.to_nat n).

Fixpoint zeros (k : nat) : string :=
  match k with
  | O => ""
  | S k' => String "0" (zeros k')
  end.

(** Drops trailing zeros of a mantissa below the decimal point. *)
Fixpoint strip_zeros (fuel : nat) (m e : Z) : Z * Z :=
  match fuel with
  | O => (m, e)
  | S fuel' =>
      if (e <? 0) && (m mod 10 =? 0) then strip_zeros fuel' (m / 10) (e + 1)
      else (m, e)
  end.

(** [String(n)] for a number, in plain positional notation (the exponent
    notation JavaScript switches to for very large or very small magnitudes
    is outside the model). *)
Definition number_to_string (n : number) : string :=
  let m := mantissa n in
  let e := exponent n in
  if m =? 0 then "0"
  else if 0 <=? e then sign_text m ++ digits_of (Z.abs m) ++ zeros (Z.to_nat e)
  else
    let '(m', e') := strip_zeros (Z.to_nat (- e)) (Z.abs m) e in
    if e' =? 0 then sign_text m ++ digits_of m'
    else
      let k := Z.to_nat (- e') in
      let whole := m' / 10 ^ (- e') in
      let part := digits_of (m' mod 10 ^ (- e')) in
      sign_text m ++ digits_of whole ++ "." ++
      zeros (k - String.length part) ++ part.

(** [String(v)], the conversion a template literal, a property key and
    [encodeURIComponent] apply. *)
Fixpoint ToString (v : value) : string :=
  match v with
  | VUndefined => "undefined"
  | VNull => "null"
  | VBool true => "true"
  | VBool false => "false"
  | VNum n => number_to_string n
  | VStr s => s
  | VArr elems =>
      (fix join (first : bool) (xs : list value) : string :=
         match xs with
         | [] => ""
         | x :: rest =>
             (if first then "" else ",") ++
             (if is_nullish x then "" else ToString x) ++ join false rest
         end) true elems
  | VObj _ => "[object Object]"
  end.

Definition hex_digit (n : nat) : ascii :=
  if (n <? 10)%nat then ascii_of_nat (48 + n) else ascii_of_nat (55 + n).

Definition is_unreserved (c : ascii) : bool :=
  let n := nat_of_ascii c in
  ((48 <=? n) && (n <=? 57) || (65 <=? n) && (n <=? 90) ||
   (97 <=? n) && (n <=? 122))%nat ||
  existsb (Ascii.eqb c) ["-"; "_"; "."; "!"; "~"; "*"; "'"; "("; ")"]%char.

Fixpoint percent_encode (s : string) : string :=
  match s with
  | EmptyString => ""
  | String c rest =>
      if is_unreserved c then String c (percent_encode rest)
      else
        let n := nat_of_ascii c in
        String "%" (String (hex_digit (n / 16)) (String (hex_digit (n mod 16))
          (percent_encode rest)))
  end.

(** [encodeURIComponent(v)]. *)
Definition encodeURIComponent (v : value) : string := percent_encode (ToString v).

(** [v === s] against a string constant. *)
Definition is_string (s : string) (v : value) : bool :=
  match v with
  | VStr t => String.eqb t s
  | _ => false
  end.

End JS.

(** ** [JSON.parse] *)

Module JSON.
Import JS.

Definition is_ws (c : ascii) : bool :=
  match c with
  | " "%char | "009"%char | "010"%char | "013"%char => true
  | _ => false
  end.

Fixpoint skip_ws (s : string) : string :=
  match s with
  | String c rest => if is_ws c then skip_ws rest else s
  | EmptyString => s
  end.

Definition digit_val (c : ascii) : option Z :=
  let n := Z.of_nat (nat_of_ascii c) in
  if (48 <=? n) && (n <=? 57) then Some (n - 48) else None.

Definition hex_val (c : ascii) : option Z :=
  let n := Z.of_nat (nat_of_ascii c) in
  if (48 <=? n) && (n <=? 57) then Some (n - 48)
  else if (65 <=? n) && (n <=? 70) then Some (n - 55)
  else if (97 <=? n) && (n <=? 102) then Some (n - 87)
  else None.

(** Reads a run of decimal digits: its value on top of [acc], how many digits
    were read, and the rest of the text. *)
Fixpoint read_digits (s : string) (acc : Z) (count : nat) : Z * nat * string :=
  match s with
  | String c rest =>
      match digit_val c with
      | Some d => read_digits rest (acc * 10 + d) (S count)
      | None => (acc, count, s)
      end
  | EmptyString => (acc, count, s)
  end.

Definition parse_int (s : string) : option (Z * string) :=
  match s with
  | String "0" rest => Some (0, rest)
  | _ =>
      match read_digits s 0 0%nat with
      | (_, O, _) => None
      | (n, _, rest) => Some (n, rest)
      end
  end.

Definition parse_frac (m : Z) (s : string) : option (Z * Z * string) :=
  match s with
  | String "." rest =>
      match read_digits rest m 0%nat with
      | (_, O, _) => None
      | (m', k, rest') => Some (m', - Z.of_nat k, rest')
      end
  | _ => Some (m, 0, s)
  end.

Definition parse_exp (s : string) : option (Z * string) :=
  let digits := fun (sign : Z) (t : string) =>
    match read_digits t 0 0%nat with
    | (_, O, _) => None
    | (e, _, rest) => Some (sign * e, rest)
    end in
  match s with
  | String c rest =>
      if Ascii.eqb c "e" || Ascii.eqb c "E" then
        match rest with
        | String "+" t => digits 1 t
        | String "-" t => digits (-1) t
        | _ => digits 1 rest
        end
      else Some (0, s)
  | EmptyString => Some (0, s)
  end.

Definition parse_number (s : string) : option (number * string) :=
  let '(sign, body) :=
    match s with
    | String "-" rest => (-1, rest)
    | _ => (1, s)
    end in
  match parse_int body with
  | None => None
  | Some (n, r1) =>
      match parse_frac n r1 with
      | None => None
      | Some (m, e1, r2) =>
          match parse_exp r2 with
          | None => None
          | Some (e2, r3) => Some (Number (sign * m) (e1 + e2), r3)
          end
      end
  end.

Definition unit_of (n : Z) : ascii := ascii_of_nat (Z.to_nat n).

(** The text of one escaped 16-bit unit [\uXXXX], in the encoding of the
    model's strings (each unit is encoded on its own). *)
Definition encode_unit (n : Z) : string :=
  if n <? 128 then String (unit_of n) ""
  else if n <? 2048 then
    String (unit_of (192 + n / 64)) (String (unit_of (128 + n mod 64)) "")
  else
    String (unit_of (224 + n / 4096))
      (String (unit_of (128 + (n / 64) mod 64))
         (String (unit_of (128 + n mod 64)) "")).

(** The characters of a string literal after its opening quote, up to and
    including the closing quote. *)
Fixpoint parse_chars (s : string) : option (string * string) :=
  let continue := fun (piece rest : string) =>
    match parse_chars rest with
    | Some (text, rest') => Some (piece ++ text, rest')
    | None => None
    end in
  match s with
  | EmptyString => None
  | String "034"%char rest => Some ("", rest)
  | String "\" (String e rest) =>
      match e with
      | "034"%char => continue (String "034" "") rest
      | "\"%char => continue "\" rest
      | "/"%char => continue "/" rest
      | "b"%char => continue (String "008" "") rest
      | "f"%char => continue (String "012" "") rest
      | "n"%char => continue (String "010" "") rest
      | "r"%char => continue (String "013" "") rest
      | "t"%char => continue (String "009" "") rest
      | "u"%char =>
          match rest with
          | String h1 (String h2 (String h3 (String h4 rest'))) =>
              match hex_val h1, hex_val h2, hex_val h3, hex_val h4 with
              | Some a, Some b, Some c, Some d =>
                  continue (encode_unit (a * 4096 + b * 256 + c * 16 + d)) rest'
              | _, _, _, _ => None
              end
          | _ => None
          end
      | _ => None
      end
  | String "\" EmptyString => None
  | String c rest =>
      if (nat_of_ascii c <? 32)%nat then None else continue (String c "") rest
  end.

(** Defining a property while parsing: a repeated key keeps its place and
    takes the later value. *)
Fixpoint set_prop (k : string) (v : value) (props : list (string * value))
  : list (string * value) :=
  match props with
  | [] => [(k, v)]
  | (k', v') :: rest =>
      if String.eqb k' k then (k', v) :: rest else (k', v') :: set_prop k v rest
  end.

Definition starts_with (p s : string) : option string :=
  if String.prefix p s
  then Some (substring (String.length p) (String.length s - String.length p) s)
  else None.

(** The recursive-descent grammar.  Every recursive call is made after at
    least one character was consumed, and [parse] below supplies fuel for
    twice the length of the text. *)
Fixpoint parse_value (fuel : nat) (s : string) : option (value * string) :=
  match fuel with
  | O => None
  | S fuel' =>
      match skip_ws s with
      | String "[" rest =>
          match skip_ws rest with
          | String "]" rest' => Some (VArr [], rest')
          | body => parse_elems fuel' body []
          end
      | String "{" rest =>
          match skip_ws rest with
          | String "}" rest' => Some (VObj [], rest')
          | body => parse_members fuel' body []
          end
      | String "034"%char rest =>
          match parse_chars rest with
          | Some (text, rest') => Some (VStr text, rest')
          | None => None
          end
      | body =>
          match starts_with "null" body, starts_with "true" body,
                starts_with "false" body with
          | Some rest, _, _ => Some (VNull, rest)
          | _, Some rest, _ => Some (VBool true, rest)
          | _, _, Some rest => Some (VBool false, rest)
          | None, None, None =>
              match parse_number body with
              | Some (n, rest) => Some (VNum n, rest)
              | None => None
              end
          end
      end
  end

with parse_elems (fuel : nat) (s : string) (acc : list value)
  : option (value * string) :=
  match fuel with
  | O => None
  | S fuel' =>
      match parse_value fuel' s with
      | None => None
      | Some (v, rest) =>
          match skip_ws rest with
          | String "," rest' => parse_elems fuel' rest' (acc ++ [v])%list
          | String "]" rest' => Some (VArr (acc ++ [v])%list, rest')
          | _ => None
          end
      end
  end

with parse_members (fuel : nat) (s : string) (acc : list (string * value))
  : option (value * string) :=
  match fuel with
  | O => None
  | S fuel' =>
      match skip_ws s with
      | String "034"%char rest =>
          match parse_chars rest with
          | None => None
          | Some (key, rest1) =>
              match skip_ws rest1 with
              | String ":" rest2 =>
                  match parse_value fuel' rest2 with
                  | None => None
                  | Some (v, rest3) =>
                      match skip_ws rest3 with
                      | String "," rest4 =>
                          parse_members fuel' rest4 (set_prop key v acc)
                      | String "}" rest4 => Some (VObj (set_prop key v acc), rest4)
                      | _ => None
                      end
                  end
              | _ => None
              end
          end
      | _ => None
      end
  end.

(** [JSON.parse(text)]: [None] stands for the [SyntaxError] it throws. *)
Definition parse (text : string) : option value :=
  match parse_value (2 * String.length text + 2) text with
  | Some (v, rest) =>
      match skip_ws rest with
      | EmptyString => Some v
      | _ => None
      end
  | None => None
  end.

End JSON.


(** ** The network *)

Module Net.
Import JS.

(** What [fetch] resolves to: the fields and body readers the sources use. *)
Record response := Response {
  ok : bool;
  status : nat;
  statusText : string;
  body : string
}.

(** The remote side: the answer to a GET of a URL, or [None] when the request
    itself fails and the promise of [fetch] rejects. *)
Definition remote := string -> option response.

(** An asynchronous function body: it reads the remote, appends the URLs it
    requests to the log, and returns or throws. *)
Definition io (A : Type) := remote -> list string -> outcome A * list string.

Definition ret {A} (a : A) : io A := fun _ log => (Returned a, log).

Definition throw {A} (e : exn) : io A := fun _ log => (Thrown e, log).

Definition bind {A B} (c : io A) (k : A -> io B) : io B :=
  fun net log =>
    match c net log with
    | (Returned a, log') => k a net log'
    | (Thrown e, log') => (Thrown e, log')
    end.

Definition lift {A} (x : outcome A) : io A := fun _ log => (x, log).

(** [await fetch(url)]. *)
Definition fetch (url : string) : io response :=
  fun net log =>
    (match net url with
     | Some r => Returned r
     | None => Thrown FetchFailed
     end, (log ++ [url])%list).

(** Running a call against a remote, from an empty request log. *)
Definition run {A} (c : io A) (net : remote) : outcome A * list string := c net [].

End Net.

Declare Scope io_scope.
Delimit Scope io_scope with io.
Notation "x <- c ;; k" := (Net.bind c (fun x => k))
  (at level 61, c at next level, right associativity) : io_scope.
Notation "'do' x <- c ;; k" := (JS.obind c (fun x => k))
  (at level 61, x name, c at next level, right associativity).

(** ** The class [Gsheety] *)

Module Gsheety.
Import JS Net.
Local Open Scope io_scope.

(** *** [parseURL] *)

Definition is_slash (c : ascii) : bool := Ascii.eqb c "/".

(** The greedy class [[^/]+] at the head of a text. *)
Fixpoint take_non_slash (s : string) : string :=
  match s with
  | String c rest => if is_slash c then "" else String c (take_non_slash rest)
  | EmptyString => ""
  end.

(** The pattern [\/d\/([^/]+)] anchored at the head of a text; the answer is
    the capture group. *)
Definition match_here (s : string) : option string :=
  match s with
  | String a (String b (String c rest)) =>
      if Ascii.eqb a "/" && Ascii.eqb b "d" && Ascii.eqb c "/" then
        match take_non_slash rest with
        | EmptyString => None
        | id => Some id
        end
      else None
  | _ => None
  end.

(** [url.match(/\/d\/([^/]+)/)]: the leftmost place where the pattern
    matches. *)
Fixpoint regex_match (s : string) : option string :=
  match match_here s with
  | Some id => Some id
  | None =>
      match s with
      | String _ rest => regex_match rest
      | EmptyString => None
      end
  end.

Definition InvalidURL : exn := Error "Invalid Google Sheets URL".

Definition canonical (id : string) : string :=
  "https://docs.google.com/spreadsheets/d/" ++ id.

Definition parseURL (url : string) : outcome string :=
  match regex_match url with
  | None => Thrown InvalidURL
  | Some id => Returned (canonical id)
  end.

(** *** [fetchJSON] *)

(** A destructuring default [{ k = d } = options]: the default applies to a
    missing or [undefined] property only. *)
Definition with_default (v d : value) : value :=
  match v with
  | VUndefined => d
  | _ => v
  end.

Definition result (data : value) (msg : string) : value :=
  VObj [("data", data); ("msg", VStr msg)].

Definition query_url (base : string) (sheet query : value) : string :=
  base ++ "/gviz/tq?sheet=" ++ encodeURIComponent sheet ++
  "&tq=" ++ encodeURIComponent query.

(** The text between the first opening and the last closing brace. *)
Definition extract (text : string) : string :=
  slice text (indexOf "{" text) (lastIndexOf "}" text + 1).

(** The branch taken when [res.ok] holds. *)
Definition read_body (text : string) : outcome value :=
  match JSON.parse (extract text) with
  | None => Thrown SyntaxError
  | Some json =>
      do table <- getProp json "table" ;;
      if negb (truthy table)
      then Returned (result VNull "Invalid query or empty response")
      else Returned (result json "ok")
  end.

Definition http_error (res : response) : string :=
  "HTTP Error " ++ string_of_nat (status res) ++ ": " ++ statusText res.

Definition fetchJSON (url : string) (options : value) : io value :=
  sheet0 <- lift (getProp options "sheet") ;;
  query0 <- lift (getProp options "query") ;;
  let sheet := with_default sheet0 (VStr "Sheet1") in
  let query := with_default query0 (VStr "SELECT *") in
  base <- lift (parseURL url) ;;
  res <- fetch (query_url base sheet query) ;;
  if ok res then lift (read_body (body res))
  else ret (result VNull (http_error res)).

(** *** [get] *)

Definition InvalidOptions : exn := Error "Options parameter must be an object".

Definition empty_result (msg : value) : value :=
  VObj [("cols", VArr []); ("rows", VArr []); ("msg", msg)].

(** The callback of [table.cols.map]. *)
Definition column (col : value) (index : nat) : value :=
  let label := getPropOpt col "label" in
  VObj [("label",
         if truthy label then label
         else VStr ("Column " ++ string_of_nat (index + 1)));
        ("columnId", getPropOpt col "id");
        ("type", getPropOpt col "type")].

(** The callback of the inner [cols.map]: the cell of [row] under column [i]. *)
Definition cell_value (row : value) (i : nat) : outcome value :=
  do c <- getProp row "c" ;;
  do cell <- getIndex c i ;;
  if truthy cell then getProp cell "v" else Returned VNull.

Definition normalize_row (cols : list value) (row : value) : outcome (list value) :=
  mapi (fun _ i => cell_value row i) cols.

Definition clear_row (row : list value) : list value := filter not_null row.

Definition normalized (cols : list value) (rows : list (list value)) (msg : value)
  : value :=
  VObj [("cols", VArr cols); ("rows", VArr (map VArr rows)); ("msg", msg)].

(** The part of [get] after the raw escape hatch. *)
Definition normalize (res options : value) : outcome value :=
  do data <- getProp res "data" ;;
  do table <- getProp data "table" ;;
  do cols0 <- getProp table "cols" ;;
  do cols1 <- asArray cols0 ;;
  let cols := imap column cols1 in
  do rows0 <- getProp table "rows" ;;
  do rows1 <- asArray rows0 ;;
  do rows <- mapi (fun row _ => normalize_row cols row) rows1 ;;
  do clearNull <- getProp options "clearNull" ;;
  let rows' := if truthy clearNull then map clear_row rows else rows in
  do msg <- getProp res "msg" ;;
  Returned (normalized cols rows' msg).

Definition get (url : string) (options : value) : io value :=
  let options := with_default options (VObj []) in
  if negb (String.eqb (typeof options) "object") then throw InvalidOptions
  else
    res <- fetchJSON url options ;;
    data <- lift (getProp res "data") ;;
    if negb (truthy data) then
      msg <- lift (getProp res "msg") ;;
      ret (empty_result msg)
    else
      raw <- lift (getProp options "raw") ;;
      if truthy raw then ret res
      else lift (normalize res options).

(** *** [getExportedData] *)

Definition UnsupportedFormat : exn :=
  Error "Unsupported format. Use: csv, tsv, pdf, or xlsx.".

(** The own properties of the object literal [formats]. *)
Definition formats : list (string * value) :=
  [("csv", VStr "export?format=csv");
   ("tsv", VStr "export?format=tsv");
   ("pdf", VStr "export?format=pdf");
   ("xlsx", VStr "export?format=xlsx")].

(** What an object literal inherits from [Object.prototype]: each name with
    the text a template literal prints for its value (built-in functions
    print their native-code placeholder). *)
Definition Object_prototype : list (string * string) :=
  [("constructor", "function Object() { [native code] }");
   ("__defineGetter__", "function __defineGetter__() { [native code] }");
   ("__defineSetter__", "function __defineSetter__() { [native code] }");
   ("hasOwnProperty", "function hasOwnProperty() { [native code] }");
   ("__lookupGetter__", "function __lookupGetter__() { [native code] }");
   ("__lookupSetter__", "function __lookupSetter__() { [native code] }");
   ("isPrototypeOf", "function isPrototypeOf() { [native code] }");
   ("propertyIsEnumerable", "function propertyIsEnumerable() { [native code] }");
   ("toString", "function toString() { [native code] }");
   ("valueOf", "function valueOf() { [native code] }");
   ("__proto__", "[object Object]");
   ("toLocaleString", "function toLocaleString() { [native code] }")].

Fixpoint assoc (k : string) (table : list (string * string)) : option string :=
  match table with
  | [] => None
  | (k', t) :: rest => if String.eqb k' k then Some t else assoc k rest
  end.

(** The outcome of the keyed read [formats[type]]. *)
Inductive member :=
| Own (v : value)
| Inherited (text : string)
| Missing.

Definition formats_get (type : value) : member :=
  let key := ToString type in
  match lookup key formats with
  | Some v => Own v
  | None =>
      match assoc key Object_prototype with
      | Some text => Inherited text
      | None => Missing
      end
  end.

Definition member_truthy (m : member) : bool :=
  match m with
  | Own v => truthy v
  | Inherited _ => true
  | Missing => false
  end.

Definition member_text (m : member) : string :=
  match m with
  | Own v => ToString v
  | Inherited text => text
  | Missing => "undefined"
  end.

Inductive exported :=
| Blob (bytes : string)
| Text (text : string).

Definition getExportedData (url : string) (type : value) : io exported :=
  let type := with_default type (VStr "csv") in
  if negb (member_truthy (formats_get type)) then throw UnsupportedFormat
  else
    base <- lift (parseURL url) ;;
    res <- fetch (base ++ "/" ++ member_text (formats_get type)) ;;
    if negb (ok res) then throw (Error (http_error res))
    else if is_string "pdf" type || is_string "xlsx" type
         then ret (Blob (body res))
         else ret (Text (body res)).

(** *** [generateTableFromOutput] *)

(** A DOM element as the function builds it: tag, class, text and children. *)
#[warnings="-register-all"]
Inductive element :=
| Element (tagName className textContent : string) (children : list element).

(** The options of the table builder: [options.className] is a value,
    [options.callback.theadItem] and [options.callback.tbodyItem] are present
    when they are functions; a hook updates the element it is handed. *)
Record table_options := TableOptions {
  className : value;
  theadItem : option (element -> element);
  tbodyItem : option (element -> element)
}.

(** A hook invocation, with the element as it was handed over. *)
Inductive call :=
| TheadItem (th : element)
| TbodyItem (td : element).

Definition InvalidData : exn := Error "Given data parameter is not valid or available.".

(** Assigning [el.textContent = v]. *)
Definition text_of (v : value) : string :=
  if is_nullish v then "" else ToString v.

(** [if (options.className?.k) el.className = options.className.k]. *)
Definition class_of (options : table_options) (k : string) : string :=
  let c := getPropOpt (className options) k in
  if truthy c then ToString c else "".

Definition apply_hook (hook : option (element -> element)) (mk : element -> call)
  (el : element) : element * list call :=
  match hook with
  | Some f => (f el, [mk el])
  | None => (el, [])
  end.

(** [xs.forEach(f)] where each step yields an element and the hook calls it
    made, and may throw. *)
Fixpoint for_each {A} (f : A -> outcome (element * list call)) (xs : list A)
  : outcome (list element * list call) :=
  match xs with
  | [] => Returned ([], [])
  | x :: rest =>
      do r <- f x ;;
      do rs <- for_each f rest ;;
      Returned (fst r :: fst rs, (snd r ++ snd rs)%list)
  end.

Definition header_cell (options : table_options) (col : value)
  : outcome (element * list call) :=
  do label <- getProp col "label" ;;
  Returned (apply_hook (theadItem options) TheadItem
              (Element "th" "" (text_of label) [])).

Definition body_cell (options : table_options) (cell : value)
  : outcome (element * list call) :=
  Returned (apply_hook (tbodyItem options) TbodyItem
              (Element "td" "" (text_of cell) [])).

Definition body_row (options : table_options) (row : value)
  : outcome (element * list call) :=
  do cells <- asArray row ;;
  do tds <- for_each (body_cell options) cells ;;
  Returned (Element "tr" "" "" (fst tds), snd tds).

Definition invalid_data (data : value) : bool :=
  negb (truthy data)
  || negb (isArray (getPropOpt data "rows"))
  || negb (isArray (getPropOpt data "cols"))
  || negb (is_string "ok" (getPropOpt data "msg")).

Definition generateTableFromOutput (data : value) (options : table_options)
  : outcome (element * list call) :=
  if invalid_data data then Thrown InvalidData
  else
    do cols <- asArray (getPropOpt data "cols") ;;
    do ths <- for_each (header_cell options) cols ;;
    let thead := Element "thead" (class_of options "thead") ""
                   [Element "tr" "" "" (fst ths)] in
    do rows <- asArray (getPropOpt data "rows") ;;
    do trs <- for_each (body_row options) rows ;;
    let tbody := Element "tbody" (class_of options "tbody") "" (fst trs) in
    Returned (Element "table" (class_of options "table") "" [thead; tbody],
              (snd ths ++ snd trs)%list).

End Gsheety.

(** ** The [get] of [src/gsheety.js] *)

Module GsheetySrc.
Import JS Net.
Local Open Scope io_scope.

(** [parseURL] and [fetchJSON] have the same text in the three files. *)
Definition fetchJSON := Gsheety.fetchJSON.

Definition InvalidOptions : exn := Error "Options parameter must be an object".

(** [col ? { label: col.label, type: col.type } : null]. *)
Definition column (col : value) : value :=
  if truthy col
  then VObj [("label", getPropOpt col "label"); ("type", getPropOpt col "type")]
  else VNull.

(** [cell ? cell.v : null]. *)
Definition cell_value (cell : value) : value :=
  if truthy cell then getPropOpt cell "v" else VNull.

(** [row.c.map(...)]. *)
Definition row_cells (row : value) : outcome (list value) :=
  do c <- getProp row "c" ;;
  do cells <- asArray c ;;
  Returned (map cell_value cells).

Definition normalize (res : value) : outcome value :=
  do data <- getProp res "data" ;;
  do table <- getProp data "table" ;;
  do cols0 <- getProp table "cols" ;;
  do cols1 <- asArray cols0 ;;
  let cols := filter not_null (map column cols1) in
  do rows0 <- getProp table "rows" ;;
  do rows1 <- asArray rows0 ;;
  do rows <- mapi (fun row _ => row_cells row) rows1 ;;
  let rows' := map (filter not_null) rows in
  do msg <- getProp res "msg" ;;
  Returned (VObj [("cols", VArr cols); ("rows", VArr (map VArr rows'));
                  ("msg", msg)]).

Definition get (url : string) (options : value) : io value :=
  let options := Gsheety.with_default options (VObj []) in
  if negb (String.eqb (typeof options) "object") then throw InvalidOptions
  else
    res <- fetchJSON url options ;;
    data <- lift (getProp res "data") ;;
    if negb (truthy data) then
      msg <- lift (getProp res "msg") ;;
      ret (Gsheety.empty_result msg)
    else
      raw <- lift (getProp options "raw") ;;
      if truthy raw then ret res
      else lift (normalize res).

End GsheetySrc.

(** ** The [get] of [dist/gsheety.js] *)

Module GsheetyDist.
Import JS Net.
Local Open Scope io_scope.

Definition fetchJSON := Gsheety.fetchJSON.

Definition InvalidOptions : exn := Error "Options parameter must be an object".

Definition normalize (res : value) : outcome value :=
  do data <- getProp res "data" ;;
  do table <- getProp data "table" ;;
  do cols0 <- getProp table "cols" ;;
  do cols1 <- asArray cols0 ;;
  let cols := map GsheetySrc.column cols1 in
  do rows0 <- getProp table "rows" ;;
  do rows1 <- asArray rows0 ;;
  do rows <- mapi (fun row _ => GsheetySrc.row_cells row) rows1 ;;
  Returned (VObj [("cols", VArr cols); ("rows", VArr (map VArr rows))]).

Definition get (url : string) (options : value) : io value :=
  let options := Gsheety.with_default options (VObj []) in
  if negb (String.eqb (typeof options) "object") then throw InvalidOptions
  else
    res <- fetchJSON url options ;;
    data <- lift (getProp res "data") ;;
    if negb (truthy data) then
      msg <- lift (getProp res "msg") ;;
      ret (Gsheety.empty_result msg)
    else
      raw <- lift (getProp options "raw") ;;
      if truthy raw then ret res
      else lift (normalize res).

End GsheetyDist.

(** ** Sample data *)

Module Samples.
Import JS Net.

(** Writes a JSON text with apostrophes for its quotation marks. *)
Fixpoint json (s : string) : string :=
  match s with
  | EmptyString => ""
  | String c rest => String (if Ascii.eqb c "'" then "034"%char else c) (json rest)
  end.

Definition sheet : string :=
  "https://docs.google.com/spreadsheets/d/1X50-csrdsKDLxXIotiW3jZtccu_hE2qOR7WKzDxhdK4/edit?usp=sharing".

(** A remote that answers every request with one HTTP-success body. *)
Definition serving (text : string) : remote :=
  fun _ => Some (Response true 200 "OK" text).

Definition envelope (payload : string) : string :=
  "/*O_o*/" ++ String "010" "" ++ "google.visualization.Query.setResponse(" ++
  payload ++ ");".

Definition people : string :=
  envelope (json
    "{'version':'0.6','reqId':'0','status':'ok','sig':'1','table':{'cols':[{'id':'A','label':'Name','type':'string'},{'id':'B','label':'','type':'number','pattern':'General'},{'id':'C','label':'Hobby','type':'string'}],'rows':[{'c':[{'v':'Adam'},{'v':23.0,'f':'23'},{'v':'Playing video games'}]},{'c':[{'v':'Ben'},null,{'v':'Cycling'}]},{'c':[{'v':'Chloe'}]}],'parsedNumHeaders':1}}").

Definition people_request : string :=
  "https://docs.google.com/spreadsheets/d/1X50-csrdsKDLxXIotiW3jZtccu_hE2qOR7WKzDxhdK4/gviz/tq?sheet=Sheet1&tq=SELECT%20*".

Definition people_cols : list value :=
  [VObj [("label", VStr "Name"); ("columnId", VStr "A"); ("type", VStr "string")];
   VObj [("label", VStr "Column 2"); ("columnId", VStr "B"); ("type", VStr "number")];
   VObj [("label", VStr "Hobby"); ("columnId", VStr "C"); ("type", VStr "string")]].

(** What [get] answers for [people] with default options. *)
Definition people_table : value :=
  VObj [("cols", VArr people_cols);
        ("rows",
         VArr [VArr [VStr "Adam"; VNum (Number 230 (-1)); VStr "Playing video games"];
               VArr [VStr "Ben"; VNull; VStr "Cycling"];
               VArr [VStr "Chloe"; VNull; VNull]]);
        ("msg", VStr "ok")].

(** What [get] answers for [people] with [clearNull] set. *)
Definition people_table_cleared : value :=
  VObj [("cols", VArr people_cols);
        ("rows",
         VArr [VArr [VStr "Adam"; VNum (Number 230 (-1)); VStr "Playing video games"];
               VArr [VStr "Ben"; VStr "Cycling"];
               VArr [VStr "Chloe"]]);
        ("msg", VStr "ok")].




End Samples.


(** ** Notions used to state the properties *)

Module Notions.
Import JS.

(** A text that is empty or begins with a slash: what may follow an id. *)
Definition at_boundary (rest : string) : Prop :=
  rest = "" \/ exists r, rest = String "/" r.

(** The text begins with [/d/] and a further slash comes later. *)
Definition segment_here (s : string) : bool :=
  match s with
  | String a (String b (String c rest)) =>
      Ascii.eqb a "/" && Ascii.eqb b "d" && Ascii.eqb c "/" && has_char "/" rest
  | _ => false
  end.

(** Somewhere in the text, [/d/] is followed by a further slash. *)
Fixpoint has_segment (s : string) : bool :=
  segment_here s ||
  match s with
  | String _ rest => has_segment rest
  | EmptyString => false
  end.

(** [xs] is [ys] with some entries left out, the others in place. *)
Inductive subseq {A : Type} : list A -> list A -> Prop :=
| subseq_nil : subseq [] []
| subseq_skip x xs ys : subseq xs ys -> subseq xs (x :: ys)
| subseq_keep x xs ys : subseq xs ys -> subseq (x :: xs) (x :: ys).

(** How many entries of a row are [null]. *)
Definition count_null (row : list value) : nat :=
  List.length (filter (fun v => negb (not_null v)) row).

(** The URL [fetchJSON] requests for a resolved link and its options. *)
Definition gviz_request (base : string) (options : value) : string :=
  Gsheety.query_url base
    (Gsheety.with_default (getPropOpt options "sheet") (VStr "Sheet1"))
    (Gsheety.with_default (getPropOpt options "query") (VStr "SELECT *")).

(** The options after the default parameter [options = {}] applied. *)
Definition given (options : value) : value :=
  Gsheety.with_default options (VObj []).





(** A raw row the cell callback can read: neither the row nor its [c] is
    [null] or [undefined]. *)
Definition row_readable (row : value) : bool :=
  negb (is_nullish row) && negb (is_nullish (getPropOpt row "c")).

(** The URL [getExportedData] requests for a resolved link and a type. *)
Definition export_request (base : string) (type : value) : string :=
  base ++ "/" ++
  Gsheety.member_text
    (Gsheety.formats_get (Gsheety.with_default type (VStr "csv"))).

(** The cells a raw row holds, when its [c] is an array. *)
Definition cells_of (row : value) : list value :=
  match getPropOpt row "c" with
  | VArr cells => cells
  | _ => []
  end.

(** A remote that answers every request with one failing status. *)
Definition failing (status : nat) (statusText : string) : Net.remote :=
  fun _ => Some (Net.Response false status statusText "").

End Notions.

(** * Properties *)

(** ** Texts *)

Module Text.
Import JS Notions.

Lemma app_assoc (a b c : string) : (a ++ b) ++ c = a ++ (b ++ c).
Proof.
  induction a as [|x a IH]; simpl; [reflexivity | now rewrite IH].
Qed.

Lemma app_nil_r (a : string) : a ++ "" = a.
Proof.
  induction a as [|x a IH]; simpl; [reflexivity | now rewrite IH].
Qed.

Lemma length_app (a b : string) :
  String.length (a ++ b) = (String.length a + String.length b)%nat.
Proof.
  induction a as [|x a IH]; simpl; [reflexivity | now rewrite IH].
Qed.

Lemma has_char_app (c : ascii) (a b : string) :
  has_char c (a ++ b) = has_char c a || has_char c b.
Proof.
  induction a as [|x a IH]; simpl; [reflexivity |].
  now rewrite IH, orb_assoc.
Qed.

End Text.

(** ** [parseURL] *)

Module ParseURLFacts.
Import JS Gsheety Notions Text.

Lemma is_slash_true (c : ascii) : is_slash c = true <-> c = "/"%char.
Proof. unfold is_slash. apply Ascii.eqb_eq. Qed.

Lemma is_slash_false (c : ascii) : is_slash c = false <-> c <> "/"%char.
Proof. unfold is_slash. apply Ascii.eqb_neq. Qed.

Lemma take_non_slash_split (s : string) :
  exists rest,
    s = take_non_slash s ++ rest /\
    has_char "/" (take_non_slash s) = false /\
    at_boundary rest.
Proof.
  induction s as [|c s IH]; simpl.
  - exists "". repeat split. now left.
  - destruct (is_slash c) eqn:E.
    + apply is_slash_true in E. subst c.
      exists (String "/" s). repeat split. right. now exists s.
    + destruct IH as (rest & Hs & Hno & Hb).
      exists rest. simpl. repeat split.
      * now rewrite <- Hs.
      * unfold is_slash in E. now rewrite E.
      * exact Hb.
Qed.

Lemma take_non_slash_app (id rest : string) :
  has_char "/" id = false -> at_boundary rest ->
  take_non_slash (id ++ rest) = id.
Proof.
  intros Hno Hb. induction id as [|c id IH]; simpl in *.
  - destruct Hb as [-> | (r & ->)]; reflexivity.
  - apply orb_false_iff in Hno. destruct Hno as [Hc Hid].
    unfold is_slash. rewrite Hc. now rewrite IH.
Qed.

Lemma take_non_slash_head (c : ascii) (rest : string) :
  c <> "/"%char -> exists t, take_non_slash (String c rest) = String c t.
Proof.
  intros Hc. simpl. apply is_slash_false in Hc. rewrite Hc. now eexists.
Qed.

(** The anchored pattern succeeds exactly on ["/d/" ++ id ++ rest] with a
    non-empty slash-free [id] that ends at a slash or at the end. *)
Lemma match_here_some (s id : string) :
  match_here s = Some id <->
  exists rest,
    s = "/d/" ++ id ++ rest /\ id <> "" /\ has_char "/" id = false /\
    at_boundary rest.
Proof.
  split.
  - unfold match_here. intros H.
    destruct s as [|a [|b [|c t]]]; try discriminate.
    destruct (Ascii.eqb a "/") eqn:Ea; [|discriminate].
    destruct (Ascii.eqb b "d") eqn:Eb; [|discriminate].
    destruct (Ascii.eqb c "/") eqn:Ec; [|discriminate].
    simpl in H.
    apply Ascii.eqb_eq in Ea, Eb, Ec. subst a b c.
    destruct (take_non_slash_split t) as (rest & Ht & Hno & Hb).
    destruct (take_non_slash t) as [|x u] eqn:Et; [discriminate|].
    injection H as <-. exists rest. repeat split; try assumption.
    + simpl. now rewrite Ht at 1.
    + discriminate.
  - intros (rest & -> & Hne & Hno & Hb).
    simpl. rewrite (take_non_slash_app id rest Hno Hb).
    destruct id; [contradiction | reflexivity].
Qed.

Lemma match_here_none (s : string) :
  match_here s = None <->
  (forall c rest, s = "/d/" ++ String c rest -> c = "/"%char).
Proof.
  split.
  - intros H c rest ->. simpl in H.
    destruct (Ascii.ascii_dec c "/") as [|Hc]; [assumption|].
    apply is_slash_false in Hc. now rewrite Hc in H.
  - intros H. destruct (match_here s) as [id|] eqn:E; [|reflexivity].
    apply match_here_some in E. destruct E as (rest & -> & Hne & Hno & _).
    destruct id as [|c id]; [contradiction|].
    simpl in Hno. apply orb_false_iff in Hno. destruct Hno as [Hc _].
    specialize (H c (id ++ rest) eq_refl). subst c. discriminate.
Qed.

(** The search returns the capture of the leftmost match. *)
Lemma regex_match_some (s id : string) :
  regex_match s = Some id ->
  exists pre rest,
    s = pre ++ "/d/" ++ id ++ rest /\ id <> "" /\ has_char "/" id = false /\
    at_boundary rest /\
    (forall pre' c rest', s = pre' ++ "/d/" ++ String c rest' -> c <> "/"%char ->
       (String.length pre <= String.length pre')%nat).
Proof.
  induction s as [|a s IH].
  - simpl. discriminate.
  - intros H.
    assert (Hcases : match_here (String a s) = Some id \/
                     (match_here (String a s) = None /\ regex_match s = Some id)).
    { simpl in H. simpl.
      destruct s as [|b [|c t]]; try (right; split; [reflexivity | exact H]).
      destruct (Ascii.eqb a "/" && Ascii.eqb b "d" && Ascii.eqb c "/");
        [|right; split; [reflexivity | exact H]].
      destruct (take_non_slash t);
        [right; split; [reflexivity | exact H] | left; exact H]. }
    destruct Hcases as [Hm | [Hn Hr]].
    + apply match_here_some in Hm. destruct Hm as (rest & Hs & Hne & Hno & Hb).
      exists "", rest. repeat split; try assumption. intros. simpl. lia.
    + destruct (IH Hr) as (pre & rest & Hs & Hne & Hno & Hb & Hleft).
      exists (String a pre), rest. repeat split; try assumption.
      * simpl. now rewrite Hs at 1.
      * intros pre' c rest' Heq Hc. destruct pre' as [|a' pre'].
        -- simpl in Heq. rewrite match_here_none in Hn.
           exfalso. apply Hc. apply (Hn c rest'). exact Heq.
        -- simpl in Heq. injection Heq as _ Heq.
           specialize (Hleft pre' c rest' Heq Hc). simpl. lia.
Qed.

Lemma regex_match_none (s : string) :
  regex_match s = None <->
  (forall pre c rest, s = pre ++ "/d/" ++ String c rest -> c = "/"%char).
Proof.
  induction s as [|a s IH].
  - split; [|reflexivity]. intros _ pre c rest H.
    destruct pre; discriminate.
  - assert (Hstep : regex_match (String a s) =
                    match match_here (String a s) with
                    | Some id => Some id
                    | None => regex_match s
                    end) by reflexivity.
    rewrite Hstep. split.
    + intros H pre c rest Heq.
      destruct (match_here (String a s)) eqn:Em; [discriminate|].
      destruct pre as [|a' pre].
      * rewrite match_here_none in Em. now apply (Em c rest).
      * simpl in Heq. injection Heq as _ Heq.
        exact (proj1 IH H pre c rest Heq).
    + intros H.
      assert (Em : match_here (String a s) = None).
      { apply match_here_none. intros c rest Heq. now apply (H "" c rest). }
      rewrite Em. apply IH. intros pre c rest Heq.
      apply (H (String a pre) c rest). simpl. now rewrite Heq.
Qed.

Lemma regex_match_canonical (id : string) :
  id <> "" -> has_char "/" id = false ->
  regex_match (canonical id) = Some id.
Proof.
  intros Hne Hno. unfold canonical. cbn.
  rewrite <- (app_nil_r id) at 1.
  rewrite (take_non_slash_app id "" Hno (or_introl eq_refl)).
  destruct id; [contradiction | reflexivity].
Qed.

Lemma has_segment_found (pre id rest : string) :
  has_segment (pre ++ "/d/" ++ id ++ "/" ++ rest) = true.
Proof.
  induction pre as [|a pre IH].
  - cbn. rewrite has_char_app. cbn. now rewrite orb_true_r.
  - change ((String a pre) ++ "/d/" ++ id ++ "/" ++ rest)
      with (String a (pre ++ "/d/" ++ id ++ "/" ++ rest)).
    cbn [has_segment]. rewrite IH. apply orb_true_r.
Qed.

(** C5, as stated, fails: a link that ends right after the id has no
    [/d/<id>/] segment, no slash at all follows its [/d/], and yet
    [parseURL] resolves it. *)
Lemma parseURL_accepts_id_at_end :
  parseURL "https://docs.google.com/spreadsheets/d/abc"
    = Returned "https://docs.google.com/spreadsheets/d/abc" /\
  ~ (exists pre id rest,
       "https://docs.google.com/spreadsheets/d/abc"
         = pre ++ "/d/" ++ id ++ "/" ++ rest).
Proof.
  split; [reflexivity|].
  intros (pre & id & rest & H).
  pose proof (has_segment_found pre id rest) as F.
  rewrite <- H in F. vm_compute in F. discriminate F.
Qed.

(** C5, amended: [parseURL] fails, and then with the invalid-URL error,
    exactly when no [/d/] of the input is followed by a character other
    than a slash; otherwise it returns the canonical URL of the id that
    follows the leftmost such [/d/], the id being the non-empty run of
    non-slash characters up to the next slash or the end of the input. *)
Theorem parseURL_contract (url : string) :
  (parseURL url = Thrown InvalidURL <->
     (forall pre c rest, url = pre ++ "/d/" ++ String c rest -> c = "/"%char)) /\
  (forall e, parseURL url = Thrown e -> e = InvalidURL) /\
  (forall r, parseURL url = Returned r ->
     exists pre id rest,
       r = "https://docs.google.com/spreadsheets/d/" ++ id /\
       url = pre ++ "/d/" ++ id ++ rest /\
       id <> "" /\ has_char "/" id = false /\ at_boundary rest /\
       (forall pre' c rest',
          url = pre' ++ "/d/" ++ String c rest' -> c <> "/"%char ->
          (String.length pre <= String.length pre')%nat)).
Proof.
  unfold parseURL. repeat split.
  - destruct (regex_match url) eqn:E; [discriminate|].
    intros _. now apply regex_match_none.
  - intros H. apply regex_match_none in H. now rewrite H.
  - intros e H. destruct (regex_match url); [discriminate|]. now injection H.
  - intros r H. destruct (regex_match url) as [id|] eqn:E; [|discriminate].
    injection H as <-.
    destruct (regex_match_some _ _ E) as (pre & rest & Hs & Hne & Hno & Hb & Hl).
    exists pre, id, rest. repeat split; assumption.
Qed.

(** C9: [parseURL] is idempotent.  Wherever it succeeds, its output is a
    fixed point (the output always holds its id after [/d/], so the proviso
    of the claim is met by every output). *)
Theorem parseURL_idempotent (url c : string) :
  parseURL url = Returned c -> parseURL c = Returned c.
Proof.
  unfold parseURL. intros H.
  destruct (regex_match url) as [id|] eqn:E; [|discriminate].
  injection H as <-.
  destruct (regex_match_some _ _ E) as (_ & _ & _ & Hne & Hno & _).
  now rewrite (regex_match_canonical id Hne Hno).
Qed.

Lemma parseURL_idempotent_witness :
  parseURL Samples.sheet
    = Returned "https://docs.google.com/spreadsheets/d/1X50-csrdsKDLxXIotiW3jZtccu_hE2qOR7WKzDxhdK4" /\
  parseURL "https://docs.google.com/spreadsheets/d/1X50-csrdsKDLxXIotiW3jZtccu_hE2qOR7WKzDxhdK4"
    = Returned "https://docs.google.com/spreadsheets/d/1X50-csrdsKDLxXIotiW3jZtccu_hE2qOR7WKzDxhdK4".
Proof.
  split; [reflexivity|].
  apply (parseURL_idempotent Samples.sheet). reflexivity.
Defined.

End ParseURLFacts.

(** ** The brace slice and the parser *)

Module ExtractFacts.
Import JS Gsheety Text.

Lemma substring_zero (n : nat) (s : string) : substring n 0 s = "".
Proof.
  revert n. induction s as [|c s IH]; intros [|n]; simpl; auto.
Qed.

Lemma substring_skip (pre t : string) (k n : nat) :
  substring (String.length pre + k) n (pre ++ t) = substring k n t.
Proof.
  induction pre as [|c pre IH]; simpl; [reflexivity | exact IH].
Qed.

Lemma substring_prefix (mid post : string) :
  substring 0 (String.length mid) (mid ++ post) = mid.
Proof.
  induction mid as [|c mid IH]; simpl.
  - apply substring_zero.
  - now rewrite IH.
Qed.

Lemma indexOf_from_found (c : ascii) (pre rest : string) (i : Z) :
  has_char c pre = false ->
  indexOf_from c (pre ++ String c rest) i = i + Z.of_nat (String.length pre).
Proof.
  revert i. induction pre as [|a pre IH]; intros i H; simpl in *.
  - rewrite Ascii.eqb_refl. lia.
  - apply orb_false_iff in H. destruct H as [Ha Hpre].
    rewrite Ha, (IH _ Hpre). lia.
Qed.

Lemma indexOf_from_cases (c : ascii) (s : string) (i : Z) :
  indexOf_from c s i = -1 \/
  exists pre rest, s = pre ++ String c rest /\ has_char c pre = false.
Proof.
  revert i. induction s as [|a s IH]; intros i; simpl.
  - now left.
  - destruct (Ascii.eqb a c) eqn:E.
    + right. apply Ascii.eqb_eq in E. subst a. now exists "", s.
    + destruct (IH (i + 1)) as [H | (pre & rest & -> & Hpre)]; [now left|].
      right. exists (String a pre), rest. split; [reflexivity|].
      simpl. now rewrite E.
Qed.

Lemma lastIndexOf_from_absent (c : ascii) (s : string) (i last : Z) :
  has_char c s = false -> lastIndexOf_from c s i last = last.
Proof.
  revert i last. induction s as [|a s IH]; intros i last H; simpl in *.
  - reflexivity.
  - apply orb_false_iff in H. destruct H as [Ha Hs].
    now rewrite Ha, (IH _ _ Hs).
Qed.

Lemma lastIndexOf_from_found (c : ascii) (pre post : string) (i last : Z) :
  has_char c post = false ->
  lastIndexOf_from c (pre ++ String c post) i last = i + Z.of_nat (String.length pre).
Proof.
  intros H. revert i last. induction pre as [|a pre IH]; intros i last; simpl.
  - rewrite Ascii.eqb_refl, (lastIndexOf_from_absent _ _ _ _ H). lia.
  - rewrite IH. lia.
Qed.

Lemma has_char_cases (c : ascii) (s : string) :
  has_char c s = false \/
  exists pre post, s = pre ++ String c post /\ has_char c post = false.
Proof.
  induction s as [|a s IH]; simpl.
  - now left.
  - destruct IH as [H | (pre & post & -> & Hpost)].
    + destruct (Ascii.eqb a c) eqn:E; [|now left].
      right. apply Ascii.eqb_eq in E. subst a. now exists "", s.
    + right. now exists (String a pre), post.
Qed.

Lemma slice_exact (pre mid post : string) :
  slice (pre ++ mid ++ post) (Z.of_nat (String.length pre))
        (Z.of_nat (String.length pre + String.length mid)) = mid.
Proof.
  unfold slice. rewrite !length_app.
  set (p := String.length pre). set (m := String.length mid).
  set (q := String.length post).
  destruct (Z.ltb_spec (Z.of_nat p) 0) as [H1|H1]; [lia|].
  destruct (Z.ltb_spec (Z.of_nat (p + m)) 0) as [H2|H2]; [lia|].
  replace (Z.min (Z.of_nat p) (Z.of_nat (p + (m + q)))) with (Z.of_nat p) by lia.
  replace (Z.min (Z.of_nat (p + m)) (Z.of_nat (p + (m + q))))
    with (Z.of_nat (p + m)) by lia.
  replace (Z.to_nat (Z.max (Z.of_nat (p + m) - Z.of_nat p) 0)) with m by lia.
  rewrite Nat2Z.id.
  replace p with (String.length pre + 0)%nat by (subst p; lia).
  rewrite substring_skip. apply substring_prefix.
Qed.

(** The slice kept by [fetchJSON] runs from the first opening brace to the
    last closing brace, both included. *)
Lemma extract_braces (pre mid post : string) :
  has_char "{" pre = false -> has_char "}" post = false ->
  extract (pre ++ "{" ++ mid ++ "}" ++ post) = "{" ++ mid ++ "}".
Proof.
  intros Hpre Hpost. unfold extract, indexOf, lastIndexOf.
  assert (Hfirst : indexOf_from "{" (pre ++ "{" ++ mid ++ "}" ++ post) 0
                   = Z.of_nat (String.length pre)).
  { change (pre ++ "{" ++ mid ++ "}" ++ post)
      with (pre ++ String "{" (mid ++ String "}" post)).
    rewrite (indexOf_from_found _ _ _ _ Hpre). lia. }
  assert (Hlast : lastIndexOf_from "}" (pre ++ "{" ++ mid ++ "}" ++ post) 0 (-1) + 1
                  = Z.of_nat (String.length pre + String.length ("{" ++ mid ++ "}"))).
  { replace (pre ++ "{" ++ mid ++ "}" ++ post)
      with ((pre ++ String "{" mid) ++ String "}" post)
      by (rewrite app_assoc; reflexivity).
    rewrite (lastIndexOf_from_found _ _ _ _ (-1) Hpost).
    rewrite length_app. simpl. rewrite length_app. simpl. lia. }
  rewrite Hfirst, Hlast.
  replace (pre ++ "{" ++ mid ++ "}" ++ post)
    with (pre ++ ("{" ++ mid ++ "}") ++ post).
  - apply slice_exact.
  - simpl. now rewrite app_assoc.
Qed.

(** Whatever the body, the slice is empty, a lone closing brace, or begins
    with an opening brace. *)
Lemma extract_head (text : string) :
  extract text = "" \/ extract text = "}" \/ exists t, extract text = String "{" t.
Proof.
  unfold extract, indexOf, lastIndexOf.
  destruct (indexOf_from_cases "{" text 0) as [Hnone | (pre & rest & -> & Hpre)].
  - rewrite Hnone.
    destruct (has_char_cases "}" text) as [Habs | (pre & post & -> & Hpost)].
    + rewrite (lastIndexOf_from_absent _ _ _ _ Habs).
      left. change (-1 + 1) with 0. unfold slice. cbn [Z.ltb Z.compare].
      replace (Z.to_nat (Z.max (Z.min _ _ - _) 0)) with 0%nat by lia.
      apply substring_zero.
    + rewrite (lastIndexOf_from_found _ _ _ _ (-1) Hpost).
      unfold slice. rewrite length_app. simpl String.length.
      set (p := String.length pre). set (q := String.length post).
      cbn [Z.ltb Z.compare].
      destruct (Z.ltb_spec (0 + Z.of_nat p + 1) 0) as [H|H]; [lia|].
      destruct post as [|c post].
      * right; left. subst q. simpl String.length.
        replace (Z.to_nat (Z.max (Z.of_nat (p + 1) + -1) 0))
          with (String.length pre + 0)%nat by (subst p; lia).
        rewrite substring_skip.
        replace (Z.to_nat _) with 1%nat by lia. reflexivity.
      * left. replace (Z.to_nat (Z.max (Z.min _ _ - _) 0)) with 0%nat.
        -- apply substring_zero.
        -- subst q. simpl String.length. lia.
  - rewrite (indexOf_from_found _ _ _ _ Hpre).
    unfold slice. rewrite length_app. simpl String.length.
    set (p := String.length pre). set (q := String.length rest).
    destruct (Z.ltb_spec (0 + Z.of_nat p) 0) as [H|H]; [lia|].
    replace (Z.to_nat (Z.min (0 + Z.of_nat p) (Z.of_nat (p + S q))))
      with (String.length pre + 0)%nat by (subst p; lia).
    rewrite substring_skip.
    destruct (Z.to_nat _) as [|n].
    + now left.
    + right; right. simpl. now eexists.
Qed.

End ExtractFacts.

Module ParseFacts.
Import JS.

Ltac split_match H :=
  repeat match type of H with
         | context [match ?x with _ => _ end] => destruct x eqn:?; try discriminate H
         end.

Lemma parse_members_object (fuel : nat) :
  forall s acc v rest,
    JSON.parse_members fuel s acc = Some (v, rest) -> exists props, v = VObj props.
Proof.
  induction fuel as [|fuel IH]; intros s acc v rest H.
  - discriminate.
  - cbn [JSON.parse_members] in H. split_match H;
      first [exact (IH _ _ _ _ H) | inversion H; now eexists].
Qed.

(** A text that begins with an opening brace parses to an object or not at
    all. *)
Lemma parse_object (t : string) (json : value) :
  JSON.parse (String "{" t) = Some json -> exists props, json = VObj props.
Proof.
  unfold JSON.parse. intros H.
  destruct (JSON.parse_value _ _) as [[v rest]|] eqn:E; [|discriminate].
  destruct (JSON.skip_ws rest); [|discriminate]. injection H as <-.
  cbn [String.length Nat.mul Nat.add] in E.
  cbn [JSON.parse_value JSON.skip_ws JSON.is_ws] in E.
  destruct (JSON.skip_ws t) as [|c r] eqn:Et.
  - destruct (String.length t + _)%nat; [discriminate|].
    exact (parse_members_object _ _ _ _ _ E).
  - split_match E; try (inversion E; now eexists);
      try exact (parse_members_object _ _ _ _ _ E).
Qed.

Lemma parse_empty : JSON.parse "" = None.
Proof. reflexivity. Qed.

Lemma parse_closing_brace : JSON.parse "}" = None.
Proof. reflexivity. Qed.

(** What [fetchJSON] parses is an object whenever it parses. *)
Lemma parse_extract (text : string) (json : value) :
  JSON.parse (Gsheety.extract text) = Some json -> exists props, json = VObj props.
Proof.
  destruct (ExtractFacts.extract_head text) as [E | [E | (t & E)]]; rewrite E.
  - rewrite parse_empty. discriminate.
  - rewrite parse_closing_brace. discriminate.
  - apply parse_object.
Qed.

End ParseFacts.

(** ** [fetchJSON] and the guards of [get] *)

Module FetchFacts.
Import JS Net Gsheety Notions Text.

Lemma getProp_defined (v : value) (k : string) :
  is_nullish v = false -> getProp v k = Returned (getPropOpt v k).
Proof.
  unfold getPropOpt. destruct v; simpl; try discriminate; intros _;
    try reflexivity.
  now destruct (lookup k props).
Qed.

Lemma getProp_nullish (v : value) (k : string) :
  is_nullish v = true -> getProp v k = Thrown TypeError.
Proof. destruct v; simpl; try discriminate; reflexivity. Qed.

Lemma truthy_defined (v : value) : truthy v = true -> is_nullish v = false.
Proof. destruct v; simpl; auto; discriminate. Qed.

Lemma typeof_object (v : value) :
  typeof v = "object" -> v = VNull \/ is_nullish v = false.
Proof. destruct v; simpl; intros H; try discriminate H; auto. Qed.

(** The body of [fetchJSON], step by step, for options that can be
    destructured. *)
Lemma fetchJSON_steps (url : string) (options : value) (net : remote)
  (log : list string) :
  is_nullish options = false ->
  fetchJSON url options net log =
    match parseURL url with
    | Thrown e => (Thrown e, log)
    | Returned base =>
        match net (gviz_request base options) with
        | None => (Thrown FetchFailed, (log ++ [gviz_request base options])%list)
        | Some res =>
            (if ok res then read_body (body res)
             else Returned (result VNull (http_error res)),
             (log ++ [gviz_request base options])%list)
        end
    end.
Proof.
  intros Hopt. unfold fetchJSON, bind, lift, fetch, ret, gviz_request.
  rewrite !(getProp_defined _ _ Hopt).
  destruct (parseURL url) as [base|e]; [|reflexivity].
  destruct (net _) as [res|]; [|reflexivity].
  now destruct (ok res).
Qed.

Lemma fetchJSON_null_options (url : string) (net : remote) (log : list string) :
  fetchJSON url VNull net log = (Thrown TypeError, log).
Proof. reflexivity. Qed.

Lemma read_body_cases (text : string) :
  read_body text =
    match JSON.parse (extract text) with
    | None => Thrown SyntaxError
    | Some json =>
        Returned (if truthy (getPropOpt json "table") then result json "ok"
                  else result VNull "Invalid query or empty response")
    end.
Proof.
  unfold read_body. destruct (JSON.parse (extract text)) as [json|] eqn:E;
    [|reflexivity].
  destruct (ParseFacts.parse_extract _ _ E) as (props & ->).
  rewrite getProp_defined by reflexivity. simpl obind.
  now destruct (truthy _).
Qed.

Lemma http_error_not_ok (res : response) : http_error res <> "ok".
Proof. unfold http_error. simpl. discriminate. Qed.

(** Whatever [fetchJSON] returns is a [{ data, msg }] pair: either the data
    is [null] and the message is a diagnostic, or the data is a parsed
    object with a truthy table and the message is ok. *)
Lemma fetchJSON_returns (url : string) (options : value) (net : remote)
  (log log' : list string) (res : value) :
  fetchJSON url options net log = (Returned res, log') ->
  exists data msg,
    res = result data msg /\
    (data = VNull /\ msg <> "ok" \/
     (exists props, data = VObj props) /\ msg = "ok" /\
     truthy (getPropOpt data "table") = true).
Proof.
  destruct (is_nullish options) eqn:Hopt.
  - unfold fetchJSON, bind, lift.
    rewrite (getProp_nullish _ _ Hopt). discriminate.
  - rewrite (fetchJSON_steps _ _ _ _ Hopt).
    destruct (parseURL url); [|discriminate].
    destruct (net _) as [r|]; [|discriminate].
    destruct (ok r).
    + rewrite read_body_cases.
      destruct (JSON.parse _) as [json|] eqn:E; [|discriminate].
      destruct (truthy (getPropOpt json "table")) eqn:T; intros [= <- _].
      * exists json, "ok". split; [reflexivity|]. right.
        repeat split; [|exact T]. exact (ParseFacts.parse_extract _ _ E).
      * eexists _, _. split; [reflexivity|]. left. split; [reflexivity|].
        discriminate.
    + intros [= <- _]. eexists _, _. split; [reflexivity|]. left.
      split; [reflexivity | apply http_error_not_ok].
Qed.

(** C2, as stated, fails twice over.  A success body whose object has a
    [table] field that is falsy is reported as an invalid query, not
    returned as data; and a success body with no JSON between its braces
    makes [fetchJSON] throw instead of returning either result. *)
Lemma fetchJSON_falsy_table_or_no_json :
  (JSON.parse (extract (Samples.json "cb({'table':null,'status':'ok'});"))
     = Some (VObj [("table", VNull); ("status", VStr "ok")]) /\
   fst (run (fetchJSON Samples.sheet (VObj []))
            (Samples.serving (Samples.json "cb({'table':null,'status':'ok'});")))
     = Returned (result VNull "Invalid query or empty response")) /\
  fst (run (fetchJSON Samples.sheet (VObj [])) (Samples.serving "hello"))
    = Thrown SyntaxError.
Proof. repeat split; vm_compute; reflexivity. Qed.

(** C2, amended: on an HTTP-success response [fetchJSON] parses the slice of
    the body from its first opening brace to its last closing brace, both
    included, and throws a syntax error when that slice is not JSON; what
    parses is an object, and [fetchJSON] returns the invalid-query result
    when the object's [table] is missing or falsy, and the object itself
    with message ok otherwise. *)
Theorem fetchJSON_on_success (url : string) (options : value) (net : remote)
  (log : list string) (base : string) (res : response) :
  is_nullish options = false ->
  parseURL url = Returned base ->
  net (gviz_request base options) = Some res ->
  ok res = true ->
  (forall pre mid post,
     body res = pre ++ "{" ++ mid ++ "}" ++ post ->
     has_char "{" pre = false -> has_char "}" post = false ->
     extract (body res) = "{" ++ mid ++ "}") /\
  (JSON.parse (extract (body res)) = None ->
   fetchJSON url options net log
     = (Thrown SyntaxError, (log ++ [gviz_request base options])%list)) /\
  (forall json,
     JSON.parse (extract (body res)) = Some json ->
     (exists props, json = VObj props) /\
     fetchJSON url options net log
       = (Returned (if truthy (getPropOpt json "table")
                    then result json "ok"
                    else result VNull "Invalid query or empty response"),
          (log ++ [gviz_request base options])%list)).
Proof.
  intros Hopt Hurl Hnet Hok.
  rewrite (fetchJSON_steps _ _ _ _ Hopt), Hurl, Hnet, Hok, read_body_cases.
  repeat split.
  - intros pre mid post -> Hpre Hpost. now apply ExtractFacts.extract_braces.
  - now intros ->.
  - exact (ParseFacts.parse_extract _ _ H).
  - now rewrite H.
Qed.

Lemma fetchJSON_on_success_witness :
  exists json,
    JSON.parse (extract Samples.people) = Some json /\
    run (fetchJSON Samples.sheet (VObj [])) (Samples.serving Samples.people)
      = (Returned (result json "ok"),
         ["https://docs.google.com/spreadsheets/d/1X50-csrdsKDLxXIotiW3jZtccu_hE2qOR7WKzDxhdK4/gviz/tq?sheet=Sheet1&tq=SELECT%20*"]).
Proof.
  pose proof (fetchJSON_on_success Samples.sheet (VObj [])
                (Samples.serving Samples.people) []
                "https://docs.google.com/spreadsheets/d/1X50-csrdsKDLxXIotiW3jZtccu_hE2qOR7WKzDxhdK4"
                (Response true 200 "OK" Samples.people)
                eq_refl eq_refl eq_refl eq_refl) as (_ & _ & H).
  destruct (JSON.parse (extract Samples.people)) as [json|] eqn:E;
    [|vm_compute in E; discriminate E].
  exists json. split; [reflexivity|].
  destruct (H json) as [_ Hrun]; [exact E|].
  unfold run. rewrite Hrun. vm_compute in E. injection E as <-.
  reflexivity.
Defined.

End FetchFacts.

(** ** The guards of [get] *)

Module GetFacts.
Import JS Net Gsheety Notions Text FetchFacts.

(** [get] up to the point where it has the fetch result in hand. *)
Lemma get_steps (url : string) (options : value) (net : remote)
  (log : list string) :
  typeof (given options) = "object" ->
  get url options net log =
    match fetchJSON url (given options) net log with
    | (Thrown e, log') => (Thrown e, log')
    | (Returned res, log') =>
        if truthy (getPropOpt res "data") then
          if truthy (getPropOpt (given options) "raw") then (Returned res, log')
          else (normalize res (given options), log')
        else (Returned (empty_result (getPropOpt res "msg")), log')
    end.
Proof.
  intros Hobj. unfold get, given in *. rewrite Hobj, String.eqb_refl.
  change (negb true) with false. cbv iota. unfold bind at 1. cbv beta.
  destruct (fetchJSON url _ net log) as [[res|e] log'] eqn:F; [|reflexivity].
  destruct (fetchJSON_returns _ _ _ _ _ _ F) as (data & msg & -> & _).
  destruct (typeof_object _ Hobj) as [Hnull | Hdef].
  - rewrite Hnull in F. rewrite fetchJSON_null_options in F. discriminate F.
  - unfold bind, lift, ret. cbn [getProp getPropOpt lookup result String.eqb
      Ascii.eqb Bool.eqb].
    destruct (truthy data); simpl negb; cbv iota; [|reflexivity].
    rewrite (getProp_defined _ _ Hdef).
    now destruct (truthy (getPropOpt _ "raw")).
Qed.

(** C3, as stated, fails: the link is valid, the options are an object, the
    remote answers with HTTP success and a body that holds no JSON, and
    [get] throws. *)
Lemma get_throws_on_unparsable_body :
  parseURL Samples.sheet
    = Returned "https://docs.google.com/spreadsheets/d/1X50-csrdsKDLxXIotiW3jZtccu_hE2qOR7WKzDxhdK4" /\
  run (get Samples.sheet (VObj [])) (Samples.serving "hello")
    = (Thrown SyntaxError,
       ["https://docs.google.com/spreadsheets/d/1X50-csrdsKDLxXIotiW3jZtccu_hE2qOR7WKzDxhdK4/gviz/tq?sheet=Sheet1&tq=SELECT%20*"]).
Proof. split; vm_compute; reflexivity. Qed.

(** C3, amended: whenever the underlying fetch returns [data = null] (a
    non-success HTTP status, or a parsed payload without a truthy table),
    [get] does not throw and returns empty [cols] and [rows] with the
    fetch's message. *)
Theorem get_reports_null_data (url : string) (options : value) (net : remote)
  (log log' : list string) (msg : string) :
  typeof (given options) = "object" ->
  fetchJSON url (given options) net log = (Returned (result VNull msg), log') ->
  get url options net log
    = (Returned (VObj [("cols", VArr []); ("rows", VArr []); ("msg", VStr msg)]),
       log').
Proof.
  intros Hobj F. now rewrite (get_steps _ _ _ _ Hobj), F.
Qed.

Lemma get_reports_null_data_witness :
  run (get Samples.sheet VUndefined) (failing 404 "Not Found")
    = (Returned (VObj [("cols", VArr []); ("rows", VArr []);
                       ("msg", VStr "HTTP Error 404: Not Found")]),
       ["https://docs.google.com/spreadsheets/d/1X50-csrdsKDLxXIotiW3jZtccu_hE2qOR7WKzDxhdK4/gviz/tq?sheet=Sheet1&tq=SELECT%20*"]).
Proof.
  apply (get_reports_null_data Samples.sheet VUndefined (failing 404 "Not Found")).
  - reflexivity.
  - vm_compute. reflexivity.
Defined.

(** The two ways the fetch comes back with [data = null]. *)
Lemma get_http_failure (url : string) (options : value) (net : remote)
  (log : list string) (base : string) (res : response) :
  typeof (given options) = "object" -> given options <> VNull ->
  parseURL url = Returned base ->
  net (gviz_request base (given options)) = Some res -> ok res = false ->
  get url options net log
    = (Returned (empty_result (VStr (http_error res))),
       (log ++ [gviz_request base (given options)])%list).
Proof.
  intros Hobj Hnn Hurl Hnet Hok.
  destruct (typeof_object _ Hobj) as [? | Hdef]; [contradiction|].
  now rewrite (get_steps _ _ _ _ Hobj), (fetchJSON_steps _ _ _ _ Hdef),
    Hurl, Hnet, Hok.
Qed.

Lemma get_invalid_query (url : string) (options : value) (net : remote)
  (log : list string) (base : string) (res : response) (json : value) :
  typeof (given options) = "object" -> given options <> VNull ->
  parseURL url = Returned base ->
  net (gviz_request base (given options)) = Some res -> ok res = true ->
  JSON.parse (extract (body res)) = Some json ->
  truthy (getPropOpt json "table") = false ->
  get url options net log
    = (Returned (empty_result (VStr "Invalid query or empty response")),
       (log ++ [gviz_request base (given options)])%list).
Proof.
  intros Hobj Hnn Hurl Hnet Hok Hparse Htable.
  destruct (typeof_object _ Hobj) as [? | Hdef]; [contradiction|].
  now rewrite (get_steps _ _ _ _ Hobj), (fetchJSON_steps _ _ _ _ Hdef),
    Hurl, Hnet, Hok, read_body_cases, Hparse, Htable.
Qed.

(** C8, as stated, fails: an [undefined] options value is no configuration
    object, and [get] replaces it by the default and goes on to the
    network; [null] is none either, passes the [typeof] guard and fails
    later with a type error instead of the invalid-options error. *)
Lemma get_accepts_undefined_and_null :
  run (get Samples.sheet VUndefined) (failing 404 "Not Found")
    = (Returned (empty_result (VStr "HTTP Error 404: Not Found")),
       ["https://docs.google.com/spreadsheets/d/1X50-csrdsKDLxXIotiW3jZtccu_hE2qOR7WKzDxhdK4/gviz/tq?sheet=Sheet1&tq=SELECT%20*"]) /\
  run (get Samples.sheet VNull) (failing 404 "Not Found") = (Thrown TypeError, []).
Proof. split; vm_compute; reflexivity. Qed.

(** C8, amended: for every options value whose [typeof] is not object and
    which is not [undefined] (a boolean, a number, a string), [get] raises
    the invalid-options error at once, with no request issued; an
    [undefined] options value stands for the default [{}]. *)
Theorem get_rejects_non_object (url : string) (options : value) (net : remote)
  (log : list string) :
  typeof options <> "object" -> options <> VUndefined ->
  get url options net log
    = (Thrown (Error "Options parameter must be an object"), log).
Proof.
  intros Htype Hdef. unfold get.
  destruct options; try contradiction; try reflexivity;
    exfalso; now apply Htype.
Qed.

Lemma get_rejects_non_object_witness :
  run (get Samples.sheet (VStr "Sheet2")) (Samples.serving Samples.people)
    = (Thrown (Error "Options parameter must be an object"), []).
Proof.
  apply (get_rejects_non_object Samples.sheet (VStr "Sheet2")); discriminate.
Defined.

End GetFacts.

(** ** Normalization *)

Module NormalizeFacts.
Import JS Net Gsheety Notions Text FetchFacts GetFacts.

Lemma imap_from_length {A B} (f : A -> nat -> B) (i : nat) (xs : list A) :
  List.length (imap_from f i xs) = List.length xs.
Proof.
  revert i. induction xs as [|x xs IH]; intros i; simpl; [reflexivity|].
  now rewrite IH.
Qed.

Lemma imap_from_nth {A B} (f : A -> nat -> B) (i k : nat) (xs : list A) (x : A) :
  nth_error xs k = Some x ->
  nth_error (imap_from f i xs) k = Some (f x (i + k)%nat).
Proof.
  revert i k. induction xs as [|y xs IH]; intros i [|k] H; simpl in *;
    try discriminate.
  - injection H as ->. now rewrite Nat.add_0_r.
  - rewrite (IH (S i) k H). f_equal. f_equal. lia.
Qed.

Lemma mapi_from_returned {A B} (f : A -> nat -> outcome B) (i : nat)
  (xs : list A) (ys : list B) :
  mapi_from f i xs = Returned ys ->
  List.length ys = List.length xs /\
  (forall k x, nth_error xs k = Some x ->
     exists y, nth_error ys k = Some y /\ f x (i + k)%nat = Returned y).
Proof.
  revert i ys. induction xs as [|x xs IH]; intros i ys H; simpl in H.
  - injection H as <-. split; [reflexivity|]. intros [|k] x; discriminate.
  - destruct (f x i) as [y|] eqn:Fx; [|discriminate]. simpl in H.
    destruct (mapi_from f (S i) xs) as [ys'|] eqn:M; [|discriminate].
    injection H as <-. destruct (IH _ _ M) as [Hlen Hnth].
    split; [simpl; now rewrite Hlen|].
    intros [|k] x' Hk; simpl in Hk.
    + injection Hk as <-. exists y. now rewrite Nat.add_0_r.
    + destruct (Hnth k x' Hk) as (y' & Hy & Hf).
      exists y'. split; [exact Hy|]. now rewrite Nat.add_succ_r.
Qed.

(** The cell callback, read off the source: [row.c[i]], then [cell.v] for a
    truthy cell and [null] otherwise. *)
Lemma cell_value_returned (row : value) (i : nat) (e : value) :
  cell_value row i = Returned e ->
  exists c cell,
    getProp row "c" = Returned c /\ getIndex c i = Returned cell /\
    e = if truthy cell then getPropOpt cell "v" else VNull.
Proof.
  unfold cell_value. intros H.
  destruct (getProp row "c") as [c|] eqn:Hc; [|discriminate]. simpl in H.
  destruct (getIndex c i) as [cell|] eqn:Hi; [|discriminate]. simpl in H.
  exists c, cell. split; [reflexivity|]. split; [exact Hi|].
  destruct (truthy cell) eqn:T.
  - rewrite (getProp_defined _ _ (truthy_defined _ T)) in H. now injection H.
  - now injection H.
Qed.

Lemma normalize_row_returned (cols : list value) (row : value) (r : list value) :
  normalize_row cols row = Returned r ->
  List.length r = List.length cols /\
  (forall i, (i < List.length cols)%nat ->
     exists c cell,
       getProp row "c" = Returned c /\ getIndex c i = Returned cell /\
       nth_error r i = Some (if truthy cell then getPropOpt cell "v" else VNull)).
Proof.
  unfold normalize_row, mapi. intros H.
  destruct (mapi_from_returned _ _ _ _ H) as [Hlen Hnth].
  split; [exact Hlen|]. intros i Hi.
  destruct (nth_error cols i) as [col|] eqn:Hc.
  - destruct (Hnth i col Hc) as (e & He & Hcell). simpl in Hcell.
    destruct (cell_value_returned _ _ _ Hcell) as (c & cell & H1 & H2 & ->).
    now exists c, cell.
  - apply nth_error_None in Hc. lia.
Qed.

(** What [get] did when it returned a normalized result with message ok. *)
Lemma get_normalized_inv (url : string) (options : value) (net : remote)
  (log log' : list string) (out : value) :
  get url options net log = (Returned out, log') ->
  truthy (getPropOpt (given options) "raw") = false ->
  getPropOpt out "msg" = VStr "ok" ->
  exists json cols0 rows0 rows,
    fetchJSON url (given options) net log = (Returned (result json "ok"), log') /\
    getPropOpt (getPropOpt json "table") "cols" = VArr cols0 /\
    getPropOpt (getPropOpt json "table") "rows" = VArr rows0 /\
    mapi (fun row _ => normalize_row (imap column cols0) row) rows0
      = Returned rows /\
    out = normalized (imap column cols0)
            (if truthy (getPropOpt (given options) "clearNull")
             then map clear_row rows else rows)
            (VStr "ok").
Proof.
  intros Hget Hraw Hmsg.
  assert (Hobj : typeof (given options) = "object").
  { destruct (String.eqb (typeof (given options)) "object") eqn:E.
    - now apply String.eqb_eq.
    - unfold get in Hget. fold (given options) in Hget. rewrite E in Hget.
      discriminate Hget. }
  rewrite (get_steps _ _ _ _ Hobj) in Hget.
  destruct (fetchJSON url (given options) net log) as [[res|e] l] eqn:F;
    [|discriminate].
  destruct (fetchJSON_returns _ _ _ _ _ _ F)
    as (data & msg & -> & [[-> Hno] | [(props & ->) [-> Ht]]]).
  - cbn in Hget. injection Hget as <- <-. cbn in Hmsg.
    injection Hmsg as ->. contradiction.
  - cbn [result getPropOpt getProp lookup String.eqb Ascii.eqb Bool.eqb truthy]
      in Hget.
    rewrite Hraw in Hget. injection Hget as Hn <-.
    destruct (typeof_object _ Hobj) as [Hnull | Hdef].
    { rewrite Hnull in F. rewrite fetchJSON_null_options in F. discriminate F. }
    unfold normalize in Hn.
    cbn [result getProp lookup String.eqb Ascii.eqb Bool.eqb obind] in Hn.
    set (table := getPropOpt (VObj props) "table") in *.
    assert (Htab : match lookup "table" props with
                   | Some x => Returned x
                   | None => Returned VUndefined
                   end = Returned table).
    { subst table. unfold getPropOpt. simpl.
      now destruct (lookup "table" props). }
    rewrite Htab in Hn. cbn [obind] in Hn.
    rewrite !(getProp_defined table _ (truthy_defined _ Ht)) in Hn.
    cbn [obind] in Hn.
    destruct (getPropOpt table "cols") as [| | | | |cols0|] eqn:Hc;
      try discriminate Hn.
    destruct (getPropOpt table "rows") as [| | | | |rows0|] eqn:Hr;
      try discriminate Hn.
    cbn [asArray obind] in Hn.
    destruct (mapi _ rows0) as [rows|] eqn:Hm; [|discriminate Hn].
    cbn [obind] in Hn.
    rewrite (getProp_defined _ _ Hdef) in Hn. cbn [obind] in Hn.
    injection Hn as <-.
    exists (VObj props), cols0, rows0, rows. repeat split; assumption.
Qed.

(** The rows [get] computes, replayed on the fetch result. *)
Lemma normalize_forward (json options : value) (cols0 rows0 : list value)
  (rows : list (list value)) :
  is_nullish json = false -> is_nullish options = false ->
  truthy (getPropOpt json "table") = true ->
  getPropOpt (getPropOpt json "table") "cols" = VArr cols0 ->
  getPropOpt (getPropOpt json "table") "rows" = VArr rows0 ->
  mapi (fun row _ => normalize_row (imap column cols0) row) rows0 = Returned rows ->
  normalize (result json "ok") options
    = Returned (normalized (imap column cols0)
                  (if truthy (getPropOpt options "clearNull")
                   then map clear_row rows else rows)
                  (VStr "ok")).
Proof.
  intros Hj Ho Ht Hc Hr Hm. unfold normalize.
  cbn [result getProp lookup String.eqb Ascii.eqb Bool.eqb obind].
  rewrite (getProp_defined _ _ Hj). cbn [obind].
  rewrite !(getProp_defined _ _ (truthy_defined _ Ht)). cbn [obind].
  rewrite Hc, Hr. cbn [asArray obind]. rewrite Hm. cbn [obind].
  rewrite (getProp_defined _ _ Ho). reflexivity.
Qed.

Lemma subseq_filter {A} (f : A -> bool) (l : list A) : subseq (filter f l) l.
Proof.
  induction l as [|x l IH]; simpl; [constructor|].
  destruct (f x); now constructor.
Qed.

Lemma filter_not_null (l : list value) : ~ In VNull (filter not_null l).
Proof. intros H. apply filter_In in H. destruct H as [_ H]. discriminate H. Qed.

Lemma filter_count_null (l : list value) :
  (List.length (filter not_null l) + count_null l = List.length l)%nat.
Proof.
  unfold count_null. induction l as [|x l IH]; simpl; [reflexivity|].
  destruct (not_null x); simpl; lia.
Qed.

Lemma count_null_positive (l : list value) :
  In VNull l -> (0 < count_null l)%nat.
Proof.
  unfold count_null. induction l as [|x l IH]; simpl; [contradiction|].
  intros [-> | H]; [simpl; lia|].
  specialize (IH H). destruct (not_null x); simpl; lia.
Qed.

Lemma mapi_from_forall {A B} (P : B -> Prop) (f : A -> nat -> outcome B)
  (i : nat) (xs : list A) (ys : list B) :
  (forall x k y, f x k = Returned y -> P y) ->
  mapi_from f i xs = Returned ys -> Forall P ys.
Proof.
  intros Hf. revert i ys. induction xs as [|x xs IH]; intros i ys H; simpl in H.
  - injection H as <-. constructor.
  - destruct (f x i) as [y|] eqn:Fx; [|discriminate]. simpl in H.
    destruct (mapi_from f (S i) xs) as [ys'|] eqn:M; [|discriminate].
    injection H as <-. constructor; [exact (Hf _ _ _ Fx) | exact (IH _ _ M)].
Qed.

(** C1: a [get] call that returns with message ok and without the raw
    option has fetched a payload [json] and answers with
    - one column per entry of [json.table.cols], whose label is the entry's
      label when that is truthy and otherwise (so whenever it is absent)
      the text Column followed by the 1-based index, and whose columnId and
      type are the entry's id and type;
    - one row per entry of [json.table.rows], which before the clearNull
      step has exactly one cell per column: under column [i] the value [v]
      of the cell [row.c[i]], or [null] when that cell is absent. *)
Theorem get_normalizes (url : string) (options : value) (net : remote)
  (log log' : list string) (out : value) :
  get url options net log = (Returned out, log') ->
  truthy (getPropOpt (given options) "raw") = false ->
  getPropOpt out "msg" = VStr "ok" ->
  exists json cols0 rows0 cols rows,
    fetchJSON url (given options) net log = (Returned (result json "ok"), log') /\
    getPropOpt (getPropOpt json "table") "cols" = VArr cols0 /\
    getPropOpt (getPropOpt json "table") "rows" = VArr rows0 /\
    out = VObj [("cols", VArr cols);
                ("rows",
                 VArr (map VArr
                   (if truthy (getPropOpt (given options) "clearNull")
                    then map (filter not_null) rows else rows)));
                ("msg", VStr "ok")] /\
    List.length cols = List.length cols0 /\
    (forall i col,
       nth_error cols0 i = Some col ->
       nth_error cols i =
         Some (VObj [("label",
                      if truthy (getPropOpt col "label")
                      then getPropOpt col "label"
                      else VStr ("Column " ++ string_of_nat (i + 1)));
                     ("columnId", getPropOpt col "id");
                     ("type", getPropOpt col "type")])) /\
    List.length rows = List.length rows0 /\
    (forall j row,
       nth_error rows0 j = Some row ->
       exists r,
         nth_error rows j = Some r /\
         List.length r = List.length cols /\
         (forall i, (i < List.length cols)%nat ->
            exists c cell,
              getProp row "c" = Returned c /\
              getIndex c i = Returned cell /\
              nth_error r i
                = Some (if truthy cell then getPropOpt cell "v" else VNull))).
Proof.
  intros Hget Hraw Hmsg.
  destruct (get_normalized_inv _ _ _ _ _ _ Hget Hraw Hmsg)
    as (json & cols0 & rows0 & rows & F & Hc & Hr & Hm & ->).
  exists json, cols0, rows0, (imap column cols0), rows.
  unfold mapi in Hm. destruct (mapi_from_returned _ _ _ _ Hm) as [Hlen Hnth].
  repeat split; try assumption.
  - apply imap_from_length.
  - intros i col Hi. unfold imap. now rewrite (imap_from_nth _ _ _ _ _ Hi).
  - intros j row Hj. destruct (Hnth j row Hj) as (r & Hrj & Hrow).
    exists r. split; [exact Hrj|]. exact (normalize_row_returned _ _ _ Hrow).
Qed.

Lemma get_normalizes_witness :
  exists json cols0 rows0 cols rows,
    fetchJSON Samples.sheet (given VUndefined) (Samples.serving Samples.people) [] = (Returned (result json "ok"), [Samples.people_request]) /\
    getPropOpt (getPropOpt json "table") "cols" = VArr cols0 /\
    getPropOpt (getPropOpt json "table") "rows" = VArr rows0 /\
    Samples.people_table = VObj [("cols", VArr cols);
                ("rows",
                 VArr (map VArr
                   (if truthy (getPropOpt (given VUndefined) "clearNull")
                    then map (filter not_null) rows else rows)));
                ("msg", VStr "ok")] /\
    List.length cols = List.length cols0 /\
    (forall i col,
       nth_error cols0 i = Some col ->
       nth_error cols i =
         Some (VObj [("label",
                      if truthy (getPropOpt col "label")
                      then getPropOpt col "label"
                      else VStr ("Column " ++ string_of_nat (i + 1)));
                     ("columnId", getPropOpt col "id");
                     ("type", getPropOpt col "type")])) /\
    List.length rows = List.length rows0 /\
    (forall j row,
       nth_error rows0 j = Some row ->
       exists r,
         nth_error rows j = Some r /\
         List.length r = List.length cols /\
         (forall i, (i < List.length cols)%nat ->
            exists c cell,
              getProp row "c" = Returned c /\
              getIndex c i = Returned cell /\
              nth_error r i
                = Some (if truthy cell then getPropOpt cell "v" else VNull))).
Proof.
  apply (get_normalizes Samples.sheet VUndefined (Samples.serving Samples.people)).
  - vm_compute. reflexivity.
  - reflexivity.
  - reflexivity.
Defined.

Lemma clear_rows_shape (n : nat) (rows : list (list value)) :
  Forall (fun r => List.length r = n) rows ->
  Forall2
    (fun r r' =>
       List.length r = n /\
       subseq r' r /\
       ~ In VNull r' /\
       (List.length r' + count_null r = List.length r)%nat /\
       (In VNull r -> (List.length r' < n)%nat))
    rows (map clear_row rows).
Proof.
  induction 1 as [|r rows Hr0 _ IH]; simpl; constructor; [|exact IH].
  unfold clear_row. repeat split.
  - exact Hr0.
  - apply subseq_filter.
  - apply filter_not_null.
  - apply filter_count_null.
  - intros Hin. pose proof (count_null_positive _ Hin).
    pose proof (filter_count_null r). lia.
Qed.

(** C4: a [get] call with clearNull set (returning with message ok, raw not
    set) answers with the rows of the plain normalization, each with its
    [null] entries left out and the other cells in their order; a row that
    had a [null] cell comes out strictly shorter than the column list. *)
Theorem get_clears_nulls (url : string) (options : value) (net : remote)
  (log log' : list string) (out : value) :
  get url options net log = (Returned out, log') ->
  truthy (getPropOpt (given options) "raw") = false ->
  getPropOpt out "msg" = VStr "ok" ->
  truthy (getPropOpt (given options) "clearNull") = true ->
  exists json cols rows rows',
    fetchJSON url (given options) net log = (Returned (result json "ok"), log') /\
    normalize (result json "ok") (VObj [])
      = Returned (VObj [("cols", VArr cols); ("rows", VArr (map VArr rows));
                        ("msg", VStr "ok")]) /\
    out = VObj [("cols", VArr cols); ("rows", VArr (map VArr rows'));
                ("msg", VStr "ok")] /\
    Forall2
      (fun r r' =>
         List.length r = List.length cols /\
         subseq r' r /\
         ~ In VNull r' /\
         (List.length r' + count_null r = List.length r)%nat /\
         (In VNull r -> (List.length r' < List.length cols)%nat))
      rows rows'.
Proof.
  intros Hget Hraw Hmsg Hclear.
  destruct (get_normalized_inv _ _ _ _ _ _ Hget Hraw Hmsg)
    as (json & cols0 & rows0 & rows & F & Hc & Hr & Hm & ->).
  rewrite Hclear.
  destruct (fetchJSON_returns _ _ _ _ _ _ F) as (data & msg & E & Hdata).
  injection E as <- <-.
  destruct Hdata as [[-> _] | [(props & ->) [_ Ht]]]; [discriminate Hc|].
  exists (VObj props), (imap column cols0), rows, (map clear_row rows).
  split; [exact F|]. split.
  { now rewrite (normalize_forward (VObj props) (VObj []) cols0 rows0 rows). }
  split; [reflexivity|].
  assert (Hlen : Forall (fun r => List.length r = List.length (imap column cols0)) rows).
  { unfold mapi in Hm. refine (mapi_from_forall _ _ _ _ _ _ Hm).
    intros row k r Hrow. now apply normalize_row_returned in Hrow. }
  exact (clear_rows_shape _ _ Hlen).
Qed.

Lemma get_clears_nulls_witness :
  exists json cols rows rows',
    fetchJSON Samples.sheet (given (VObj [("clearNull", VBool true)])) (Samples.serving Samples.people) [] = (Returned (result json "ok"), [Samples.people_request]) /\
    normalize (result json "ok") (VObj [])
      = Returned (VObj [("cols", VArr cols); ("rows", VArr (map VArr rows));
                        ("msg", VStr "ok")]) /\
    Samples.people_table_cleared = VObj [("cols", VArr cols); ("rows", VArr (map VArr rows'));
                ("msg", VStr "ok")] /\
    Forall2
      (fun r r' =>
         List.length r = List.length cols /\
         subseq r' r /\
         ~ In VNull r' /\
         (List.length r' + count_null r = List.length r)%nat /\
         (In VNull r -> (List.length r' < List.length cols)%nat))
      rows rows'.
Proof.
  apply (get_clears_nulls Samples.sheet (VObj [("clearNull", VBool true)])
           (Samples.serving Samples.people)).
  - vm_compute. reflexivity.
  - reflexivity.
  - reflexivity.
  - reflexivity.
Defined.

End NormalizeFacts.

(** ** [getExportedData] *)

Module ExportFacts.
Import JS Net Gsheety Notions.

(** A type whose name is neither a format nor inherited is refused before
    anything is requested. *)
Lemma getExportedData_unsupported (url : string) (type : value) (net : remote)
  (log : list string) :
  formats_get (with_default type (VStr "csv")) = Missing ->
  getExportedData url type net log = (Thrown UnsupportedFormat, log).
Proof.
  intros H. unfold getExportedData. now rewrite H.
Qed.

(** X10: for each of the four formats [getExportedData] issues one GET of
    the export path under the resolved link, throws the HTTP error on a
    non-success status, and hands the body back as a blob for pdf and xlsx
    and as text for csv and tsv. *)
Lemma getExportedData_supported (url base t : string) (net : remote)
  (log : list string) :
  In t ["csv"; "tsv"; "pdf"; "xlsx"] ->
  parseURL url = Returned base ->
  getExportedData url (VStr t) net log =
    (match net (base ++ "/export?format=" ++ t) with
     | None => Thrown FetchFailed
     | Some res =>
         if ok res then
           Returned (if String.eqb t "pdf" || String.eqb t "xlsx"
                     then Blob (body res) else Text (body res))
         else Thrown (Error (http_error res))
     end,
     (log ++ [(base ++ "/export?format=" ++ t)%string])%list).
Proof.
  intros Ht Hurl. unfold getExportedData, bind, lift, fetch, throw, ret.
  simpl in Ht.
  destruct Ht as [<- | [<- | [<- | [<- | []]]]]; cbn; rewrite Hurl;
    (destruct (net _) as [res|]; [|reflexivity]); now destruct (ok res).
Qed.

Lemma getExportedData_supported_witness :
  run (getExportedData Samples.sheet (VStr "xlsx")) (Samples.serving "PK")
    = (Returned (Blob "PK"),
       ["https://docs.google.com/spreadsheets/d/1X50-csrdsKDLxXIotiW3jZtccu_hE2qOR7WKzDxhdK4/export?format=xlsx"]) /\
  run (getExportedData Samples.sheet (VStr "csv")) (failing 403 "Forbidden")
    = (Thrown (Error "HTTP Error 403: Forbidden"),
       ["https://docs.google.com/spreadsheets/d/1X50-csrdsKDLxXIotiW3jZtccu_hE2qOR7WKzDxhdK4/export?format=csv"]).
Proof.
  split.
  - apply (getExportedData_supported Samples.sheet
             "https://docs.google.com/spreadsheets/d/1X50-csrdsKDLxXIotiW3jZtccu_hE2qOR7WKzDxhdK4"
             "xlsx" (Samples.serving "PK") []); [simpl; tauto | reflexivity].
  - apply (getExportedData_supported Samples.sheet
             "https://docs.google.com/spreadsheets/d/1X50-csrdsKDLxXIotiW3jZtccu_hE2qOR7WKzDxhdK4"
             "csv" (failing 403 "Forbidden") []); [simpl; tauto | reflexivity].
Defined.

(** C6, on the failing input: the type constructor names no format, yet
    [formats[type]] finds the inherited property, the guard passes, and a
    request goes out; the unsupported-format error is not raised. *)
Theorem getExportedData_inherited_name (net : remote) :
  snd (run (getExportedData Samples.sheet (VStr "constructor")) net)
    = ["https://docs.google.com/spreadsheets/d/1X50-csrdsKDLxXIotiW3jZtccu_hE2qOR7WKzDxhdK4/function Object() { [native code] }"] /\
  fst (run (getExportedData Samples.sheet (VStr "constructor")) net)
    <> Thrown UnsupportedFormat.
Proof.
  unfold run, getExportedData, bind, lift, fetch, throw, ret. cbn.
  destruct (net _) as [res|]; [|split; [reflexivity | discriminate]].
  destruct (ok res); cbn; split; try reflexivity; discriminate.
Qed.

End ExportFacts.

(** ** [generateTableFromOutput] *)

Module TableFacts.
Import JS Gsheety Notions FetchFacts.











End TableFacts.

(** ** The three versions of [get] *)

Module VersionFacts.
Import JS Net Notions FetchFacts.

(** C10, as stated, fails: on one and the same payload and options the
    three versions of [get] return three different results. *)
Lemma get_versions_differ :
  fst (run (GsheetySrc.get Samples.sheet (VObj [])) (Samples.serving Samples.people))
    <> fst (run (Gsheety.get Samples.sheet (VObj [])) (Samples.serving Samples.people)) /\
  fst (run (GsheetyDist.get Samples.sheet (VObj [])) (Samples.serving Samples.people))
    <> fst (run (Gsheety.get Samples.sheet (VObj [])) (Samples.serving Samples.people)) /\
  fst (run (GsheetyDist.get Samples.sheet (VObj [])) (Samples.serving Samples.people))
    <> fst (run (GsheetySrc.get Samples.sheet (VObj [])) (Samples.serving Samples.people)).
Proof.
  repeat split; intros H; vm_compute in H; discriminate H.
Qed.

Ltac get_steps_script Hobj :=
  unfold given in *; rewrite Hobj, String.eqb_refl;
  change (negb true) with false; cbv iota; unfold bind at 1; cbv beta;
  match goal with
  | |- context [Gsheety.fetchJSON ?u ?o ?n ?l] =>
      let F := fresh "F" in
      destruct (Gsheety.fetchJSON u o n l) as [[res|e] log'] eqn:F;
      [|reflexivity];
      destruct (fetchJSON_returns _ _ _ _ _ _ F) as (data & msg & -> & _);
      destruct (typeof_object _ Hobj) as [Hnull | Hdef];
      [rewrite Hnull in F; rewrite fetchJSON_null_options in F; discriminate F|];
      unfold bind, lift, ret;
      cbn [getProp getPropOpt lookup Gsheety.result String.eqb Ascii.eqb Bool.eqb];
      destruct (truthy data); simpl negb; cbv iota; [|reflexivity];
      rewrite (getProp_defined _ _ Hdef);
      now destruct (truthy (getPropOpt _ "raw"))
  end.

Lemma src_get_steps (url : string) (options : value) (net : remote)
  (log : list string) :
  typeof (given options) = "object" ->
  GsheetySrc.get url options net log =
    match Gsheety.fetchJSON url (given options) net log with
    | (Thrown e, log') => (Thrown e, log')
    | (Returned res, log') =>
        if truthy (getPropOpt res "data") then
          if truthy (getPropOpt (given options) "raw") then (Returned res, log')
          else (GsheetySrc.normalize res, log')
        else (Returned (Gsheety.empty_result (getPropOpt res "msg")), log')
    end.
Proof.
  intros Hobj. unfold GsheetySrc.get, GsheetySrc.fetchJSON.
  get_steps_script Hobj.
Qed.

Lemma dist_get_steps (url : string) (options : value) (net : remote)
  (log : list string) :
  typeof (given options) = "object" ->
  GsheetyDist.get url options net log =
    match Gsheety.fetchJSON url (given options) net log with
    | (Thrown e, log') => (Thrown e, log')
    | (Returned res, log') =>
        if truthy (getPropOpt res "data") then
          if truthy (getPropOpt (given options) "raw") then (Returned res, log')
          else (GsheetyDist.normalize res, log')
        else (Returned (Gsheety.empty_result (getPropOpt res "msg")), log')
    end.
Proof.
  intros Hobj. unfold GsheetyDist.get, GsheetyDist.fetchJSON.
  get_steps_script Hobj.
Qed.

(** C10, amended: the three versions of [get] behave alike (same result or
    same thrown error, same requests) on every call that does not reach the
    normalization step: options rejected (their [typeof] is not object), a
    fetch that throws or yields [data = null], or the raw option set. *)
Theorem get_versions_agree_before_normalization (url : string) (options : value)
  (net : remote) (log : list string) :
  typeof (given options) <> "object" \/
  (forall res log',
     Gsheety.fetchJSON url (given options) net log = (Returned res, log') ->
     truthy (getPropOpt res "data") = true ->
     truthy (getPropOpt (given options) "raw") = true) ->
  GsheetySrc.get url options net log = Gsheety.get url options net log /\
  GsheetyDist.get url options net log = Gsheety.get url options net log.
Proof.
  intros H.
  destruct (String.eqb (typeof (given options)) "object") eqn:E.
  - apply String.eqb_eq in E. destruct H as [H | H]; [contradiction|].
    rewrite (src_get_steps _ _ _ _ E), (dist_get_steps _ _ _ _ E),
      (GetFacts.get_steps _ _ _ _ E).
    destruct (Gsheety.fetchJSON url (given options) net log) as [[res|e] l] eqn:F;
      [|split; reflexivity].
    specialize (H res l eq_refl).
    destruct (truthy (getPropOpt res "data")); [|split; reflexivity].
    rewrite (H eq_refl). split; reflexivity.
  - unfold GsheetySrc.get, GsheetyDist.get, Gsheety.get. fold (given options).
    rewrite E. split; reflexivity.
Qed.

Lemma get_versions_agree_before_normalization_witness :
  (GsheetySrc.get Samples.sheet (VStr "Sheet2") (Samples.serving Samples.people) []
     = Gsheety.get Samples.sheet (VStr "Sheet2") (Samples.serving Samples.people) [] /\
   GsheetyDist.get Samples.sheet (VStr "Sheet2") (Samples.serving Samples.people) []
     = Gsheety.get Samples.sheet (VStr "Sheet2") (Samples.serving Samples.people) []) /\
  (GsheetySrc.get Samples.sheet VUndefined (failing 404 "Not Found") []
     = Gsheety.get Samples.sheet VUndefined (failing 404 "Not Found") [] /\
   GsheetyDist.get Samples.sheet VUndefined (failing 404 "Not Found") []
     = Gsheety.get Samples.sheet VUndefined (failing 404 "Not Found") []).
Proof.
  split.
  - apply (get_versions_agree_before_normalization Samples.sheet (VStr "Sheet2")
             (Samples.serving Samples.people) []).
    left. discriminate.
  - apply (get_versions_agree_before_normalization Samples.sheet VUndefined
             (failing 404 "Not Found") []).
    right. intros res log' F T. vm_compute in F. injection F as <- _.
    discriminate T.
Defined.

End VersionFacts.

(** * Further properties of the code *)

(** ** [fetchJSON] and [get]: requests, validation, options *)

Module GetMore.
Import JS Net Gsheety Notions Text FetchFacts GetFacts NormalizeFacts.

Lemma given_object (options : value) :
  typeof options = "object" -> given options = options.
Proof. destruct options; simpl; intros H; try discriminate H; reflexivity. Qed.

(** Where the request log stands after [fetchJSON]. *)
Lemma fetchJSON_log (url : string) (options : value) (net : remote)
  (log log' : list string) (r : outcome value) :
  fetchJSON url options net log = (r, log') ->
  (log' = log /\ exists e, r = Thrown e) \/
  (exists base, parseURL url = Returned base /\
                log' = (log ++ [gviz_request base options])%list).
Proof.
  destruct (is_nullish options) eqn:Hopt.
  - unfold fetchJSON, bind, lift. rewrite (getProp_nullish _ _ Hopt).
    intros [= <- <-]. left. split; [reflexivity | now eexists].
  - rewrite (fetchJSON_steps _ _ _ _ Hopt).
    destruct (parseURL url) as [base|e].
    + intros H. right. exists base. split; [reflexivity|].
      destruct (net _); now injection H as _ <-.
    + intros [= <- <-]. left. split; [reflexivity | now eexists].
Qed.

(** X1: one message for two facts.  The fetch result carries the message ok
    exactly when it carries data, and data that is not there is [null]. *)
Theorem fetchJSON_ok_iff_data (url : string) (options : value) (net : remote)
  (log log' : list string) (res : value) :
  fetchJSON url options net log = (Returned res, log') ->
  (getPropOpt res "msg" = VStr "ok" <-> truthy (getPropOpt res "data") = true) /\
  (truthy (getPropOpt res "data") = false -> getPropOpt res "data" = VNull).
Proof.
  intros F.
  destruct (fetchJSON_returns _ _ _ _ _ _ F)
    as (data & msg & -> & [[-> Hno] | [(props & ->) [-> Ht]]]); cbn.
  - split; [|reflexivity]. split; [|discriminate].
    intros [= ->]. contradiction.
  - split; [|discriminate]. split; reflexivity.
Qed.

Lemma fetchJSON_ok_iff_data_witness :
  (getPropOpt (result VNull "HTTP Error 404: Not Found") "msg" = VStr "ok" <->
   truthy (getPropOpt (result VNull "HTTP Error 404: Not Found") "data") = true) /\
  (truthy (getPropOpt (result VNull "HTTP Error 404: Not Found") "data") = false ->
   getPropOpt (result VNull "HTTP Error 404: Not Found") "data" = VNull).
Proof.
  apply (fetchJSON_ok_iff_data Samples.sheet (VObj []) (failing 404 "Not Found")
           [] [Samples.people_request]).
  vm_compute. reflexivity.
Defined.

(** X2: [get] never issues more than one request, the one it issues is the
    query URL built from the resolved link and the options, and it cannot
    return without having issued it. *)
Theorem get_requests (url : string) (options : value) (net : remote)
  (log : list string) :
  (forall out log',
     get url options net log = (Returned out, log') ->
     exists base,
       parseURL url = Returned base /\
       log' = (log ++ [gviz_request base (given options)])%list) /\
  (forall e log',
     get url options net log = (Thrown e, log') ->
     log' = log \/
     exists base,
       parseURL url = Returned base /\
       log' = (log ++ [gviz_request base (given options)])%list).
Proof.
  destruct (String.eqb (typeof (given options)) "object") eqn:E.
  - apply String.eqb_eq in E. rewrite (get_steps _ _ _ _ E).
    destruct (fetchJSON url (given options) net log) as [r l] eqn:F.
    pose proof (fetchJSON_log _ _ _ _ _ _ F) as Hlog.
    split.
    + intros out log' H. destruct r as [res|e]; [|discriminate H].
      destruct Hlog as [[_ (e & He)] | Hreq]; [discriminate He|].
      destruct (truthy (getPropOpt res "data"));
        [destruct (truthy (getPropOpt (given options) "raw"))|];
        injection H as _ <-; exact Hreq.
    + intros e log' H.
      assert (Hl : log' = l).
      { destruct r as [res|e0]; [|now injection H].
        destruct (truthy (getPropOpt res "data"));
          [destruct (truthy (getPropOpt (given options) "raw"))|];
          now injection H. }
      subst log'. destruct Hlog as [[-> _] | Hreq]; [now left | now right].
  - unfold get. fold (given options). rewrite E. cbn.
    split; [discriminate|]. intros e log' [= _ <-]. now left.
Qed.

(** X3: a link that does not resolve is refused with the invalid-URL error
    before anything is requested, whatever the remote would answer. *)
Theorem get_invalid_url (url : string) (options : value) (net : remote)
  (log : list string) :
  typeof (given options) = "object" -> given options <> VNull ->
  (forall pre c rest, url = pre ++ "/d/" ++ String c rest -> c = "/"%char) ->
  get url options net log = (Thrown (Error "Invalid Google Sheets URL"), log).
Proof.
  intros Hobj Hnn Hurl.
  destruct (typeof_object _ Hobj) as [? | Hdef]; [contradiction|].
  rewrite (get_steps _ _ _ _ Hobj), (fetchJSON_steps _ _ _ _ Hdef).
  unfold parseURL. apply ParseURLFacts.regex_match_none in Hurl.
  now rewrite Hurl.
Qed.

Lemma get_invalid_url_witness :
  run (get "https://docs.google.com/spreadsheets/u/0/" VUndefined)
      (Samples.serving Samples.people)
    = (Thrown (Error "Invalid Google Sheets URL"), []).
Proof.
  apply (get_invalid_url "https://docs.google.com/spreadsheets/u/0/" VUndefined).
  - reflexivity.
  - discriminate.
  - apply ParseURLFacts.regex_match_none. reflexivity.
Defined.

(** X4: with the raw option set, a successful fetch is handed back as it
    is: the parsed payload under [data], the message ok, whatever clearNull
    says. *)
Theorem get_raw (url : string) (options : value) (net : remote)
  (log : list string) (base : string) (res : response) (json : value) :
  typeof (given options) = "object" -> given options <> VNull ->
  truthy (getPropOpt (given options) "raw") = true ->
  parseURL url = Returned base ->
  net (gviz_request base (given options)) = Some res -> ok res = true ->
  JSON.parse (extract (body res)) = Some json ->
  truthy (getPropOpt json "table") = true ->
  get url options net log
    = (Returned (VObj [("data", json); ("msg", VStr "ok")]),
       (log ++ [gviz_request base (given options)])%list).
Proof.
  intros Hobj Hnn Hraw Hurl Hnet Hok Hparse Htable.
  destruct (typeof_object _ Hobj) as [? | Hdef]; [contradiction|].
  rewrite (get_steps _ _ _ _ Hobj), (fetchJSON_steps _ _ _ _ Hdef),
    Hurl, Hnet, Hok, read_body_cases, Hparse, Htable.
  destruct (ParseFacts.parse_extract _ _ Hparse) as (props & ->).
  cbn [result getPropOpt getProp lookup String.eqb Ascii.eqb Bool.eqb truthy].
  now rewrite Hraw.
Qed.

Lemma get_raw_witness :
  exists json,
    JSON.parse (extract Samples.people) = Some json /\
    run (get Samples.sheet (VObj [("raw", VBool true); ("clearNull", VBool true)]))
        (Samples.serving Samples.people)
      = (Returned (VObj [("data", json); ("msg", VStr "ok")]),
         [Samples.people_request]).
Proof.
  destruct (JSON.parse (extract Samples.people)) as [json|] eqn:E;
    [|vm_compute in E; discriminate E].
  exists json. split; [reflexivity|].
  apply (get_raw Samples.sheet
           (VObj [("raw", VBool true); ("clearNull", VBool true)])
           (Samples.serving Samples.people) []
           "https://docs.google.com/spreadsheets/d/1X50-csrdsKDLxXIotiW3jZtccu_hE2qOR7WKzDxhdK4"
           (Response true 200 "OK" Samples.people) json);
    try reflexivity; try discriminate.
  - exact E.
  - vm_compute in E. injection E as <-. reflexivity.
Defined.

Lemma normalize_reads_clearNull (res o1 o2 : value) :
  is_nullish o1 = false -> is_nullish o2 = false ->
  getPropOpt o1 "clearNull" = getPropOpt o2 "clearNull" ->
  normalize res o1 = normalize res o2.
Proof.
  intros H1 H2 Hc. unfold normalize.
  destruct (getProp res "data") as [data|]; [|reflexivity]. cbn [obind].
  destruct (getProp data "table") as [table|]; [|reflexivity]. cbn [obind].
  destruct (getProp table "cols") as [cols0|]; [|reflexivity]. cbn [obind].
  destruct (asArray cols0) as [cols1|]; [|reflexivity]. cbn [obind].
  destruct (getProp table "rows") as [rows0|]; [|reflexivity]. cbn [obind].
  destruct (asArray rows0) as [rows1|]; [|reflexivity]. cbn [obind].
  destruct (mapi _ rows1) as [rows|]; [|reflexivity]. cbn [obind].
  now rewrite (getProp_defined _ _ H1), (getProp_defined _ _ H2), Hc.
Qed.

(** X5: [get] reads four options and nothing else: two option objects that
    agree on sheet, query, raw and clearNull give the same call, request
    for request and result for result. *)
Theorem get_reads_four_options (url : string) (o1 o2 : value) (net : remote)
  (log : list string) :
  typeof o1 = "object" -> typeof o2 = "object" -> o1 <> VNull -> o2 <> VNull ->
  (forall k, In k ["sheet"; "query"; "raw"; "clearNull"] ->
             getPropOpt o1 k = getPropOpt o2 k) ->
  get url o1 net log = get url o2 net log.
Proof.
  intros T1 T2 N1 N2 Hk.
  pose proof (given_object _ T1) as G1. pose proof (given_object _ T2) as G2.
  assert (T1' : typeof (given o1) = "object") by now rewrite G1.
  assert (T2' : typeof (given o2) = "object") by now rewrite G2.
  destruct (typeof_object _ T1) as [? | D1]; [contradiction|].
  destruct (typeof_object _ T2) as [? | D2]; [contradiction|].
  rewrite (get_steps _ _ _ _ T1'), (get_steps _ _ _ _ T2'), G1, G2.
  rewrite (fetchJSON_steps _ _ _ _ D1), (fetchJSON_steps _ _ _ _ D2).
  assert (Hreq : forall base, gviz_request base o1 = gviz_request base o2).
  { intros base. unfold gviz_request.
    rewrite (Hk "sheet"), (Hk "query"); simpl; auto. }
  destruct (parseURL url) as [base|]; [|reflexivity].
  rewrite (Hreq base).
  destruct (net _) as [res|]; [|reflexivity].
  destruct (if ok res then _ else _) as [r|]; [|reflexivity].
  rewrite (Hk "raw") by (simpl; auto).
  rewrite (normalize_reads_clearNull r o1 o2 D1 D2) by (apply Hk; simpl; auto).
  reflexivity.
Qed.

Lemma get_reads_four_options_witness :
  get Samples.sheet (VObj [("clearNull", VBool true)])
      (Samples.serving Samples.people) []
    = get Samples.sheet
        (VObj [("clearNull", VBool true); ("cache", VBool false);
               ("headers", VNum (Number 1 0))])
        (Samples.serving Samples.people) [].
Proof.
  apply (get_reads_four_options Samples.sheet
           (VObj [("clearNull", VBool true)])
           (VObj [("clearNull", VBool true); ("cache", VBool false);
                  ("headers", VNum (Number 1 0))]));
    try reflexivity; try discriminate.
  intros k [<- | [<- | [<- | [<- | []]]]]; reflexivity.
Defined.

End GetMore.

(** ** Normalization: when it returns, what it keeps *)

Module NormalizeMore.
Import JS Net Gsheety Notions Text FetchFacts GetFacts NormalizeFacts.

Lemma cell_value_readable (row : value) (i : nat) :
  row_readable row = true -> exists e, cell_value row i = Returned e.
Proof.
  unfold row_readable. rewrite andb_true_iff, !negb_true_iff. intros [Hr Hc].
  unfold cell_value. rewrite (getProp_defined _ _ Hr). cbn [obind].
  destruct (getIndex (getPropOpt row "c") i) as [cell|] eqn:Hi.
  - cbn [obind]. destruct (truthy cell) eqn:T; [|now eexists].
    rewrite (getProp_defined _ _ (truthy_defined _ T)). now eexists.
  - destruct (getPropOpt row "c"); simpl in Hc, Hi; try discriminate.
    + destruct (String.get i s); discriminate.
    + destruct (lookup _ props); discriminate.
Qed.

Lemma cell_value_unreadable (row : value) (i : nat) :
  row_readable row = false -> cell_value row i = Thrown TypeError.
Proof.
  unfold row_readable, cell_value. intros H.
  destruct (is_nullish row) eqn:Hr.
  - now rewrite (getProp_nullish _ _ Hr).
  - rewrite (getProp_defined _ _ Hr). cbn [obind]. simpl in H.
    rewrite negb_false_iff in H.
    destruct (getPropOpt row "c"); simpl in H; try discriminate; reflexivity.
Qed.

Lemma mapi_from_total {A B} (f : A -> nat -> outcome B) (i : nat) (xs : list A) :
  (forall x k, In x xs -> exists y, f x k = Returned y) ->
  exists ys, mapi_from f i xs = Returned ys.
Proof.
  revert i. induction xs as [|x xs IH]; intros i H; simpl; [now eexists|].
  destruct (H x i (or_introl eq_refl)) as (y & ->). cbn [obind].
  destruct (IH (S i)) as (ys & ->); [intros; apply H; now right|].
  now eexists.
Qed.

Lemma mapi_from_thrown {A B} (f : A -> nat -> outcome B) (i : nat) (xs : list A)
  (e : exn) :
  mapi_from f i xs = Thrown e -> exists x k, In x xs /\ f x k = Thrown e.
Proof.
  revert i. induction xs as [|x xs IH]; intros i; simpl; [discriminate|].
  destruct (f x i) as [y|e'] eqn:F; cbn [obind].
  - destruct (mapi_from f (S i) xs) as [ys|e''] eqn:M; cbn [obind];
      [discriminate|].
    intros [= ->]. destruct (IH _ M) as (x' & k & Hin & Hf). eauto.
  - intros [= ->]. eauto.
Qed.

Lemma mapi_from_head_thrown {A B} (f : A -> nat -> outcome B) (i : nat)
  (xs : list A) (e : exn) :
  xs <> [] -> (forall x k, f x k = Thrown e) -> mapi_from f i xs = Thrown e.
Proof.
  destruct xs as [|x xs]; [contradiction|]. intros _ H. simpl. now rewrite H.
Qed.

(** A row is normalized when there is no column to look under or when the
    row can be read; otherwise the callback throws a type error. *)
Lemma normalize_row_outcome (cols : list value) (row : value) :
  (cols = [] \/ row_readable row = true ->
   exists r, normalize_row cols row = Returned r) /\
  (cols <> [] -> row_readable row = false ->
   normalize_row cols row = Thrown TypeError).
Proof.
  unfold normalize_row, mapi. split.
  - intros [-> | Hr]; [now eexists|].
    apply mapi_from_total. intros _ k _. now apply cell_value_readable.
  - intros Hne Hr. apply mapi_from_head_thrown; [exact Hne|].
    intros _ k. now apply cell_value_unreadable.
Qed.

(** The normalization step on a fetched payload, case by case. *)
Lemma normalize_outcome (json options : value) :
  is_nullish json = false -> is_nullish options = false ->
  truthy (getPropOpt json "table") = true ->
  normalize (result json "ok") options =
    match getPropOpt (getPropOpt json "table") "cols",
          getPropOpt (getPropOpt json "table") "rows" with
    | VArr cols0, VArr rows0 =>
        match mapi (fun row _ => normalize_row (imap column cols0) row) rows0 with
        | Returned rows =>
            Returned (normalized (imap column cols0)
                        (if truthy (getPropOpt options "clearNull")
                         then map clear_row rows else rows)
                        (VStr "ok"))
        | Thrown e => Thrown e
        end
    | _, _ => Thrown TypeError
    end.
Proof.
  intros Hj Ho Ht. unfold normalize.
  cbn [result getProp lookup String.eqb Ascii.eqb Bool.eqb obind].
  rewrite (getProp_defined _ _ Hj). cbn [obind].
  rewrite !(getProp_defined _ _ (truthy_defined _ Ht)). cbn [obind].
  destruct (getPropOpt (getPropOpt json "table") "cols"); try reflexivity.
  cbn [asArray obind].
  destruct (getPropOpt (getPropOpt json "table") "rows"); try reflexivity.
  cbn [asArray obind].
  destruct (mapi _ elems0); [|reflexivity]. cbn [obind].
  now rewrite (getProp_defined _ _ Ho).
Qed.

Lemma imap_from_nil {A B} (f : A -> nat -> B) (i : nat) (xs : list A) :
  imap_from f i xs = [] <-> xs = [].
Proof. destruct xs; simpl; split; intros H; try discriminate; reflexivity. Qed.

Lemma imap_from_forall {A B} (P : B -> Prop) (f : A -> nat -> B) (i : nat)
  (xs : list A) :
  (forall x k, P (f x k)) -> Forall P (imap_from f i xs).
Proof.
  intros H. revert i. induction xs as [|x xs IH]; intros i; simpl;
    constructor; auto.
Qed.

(** X6: once the fetch has brought a payload, the normalizing [get] returns
    exactly when [table.cols] and [table.rows] are arrays and, unless there
    is no column at all, every row and its [c] are present; in every other
    case it throws a type error.  A payload without columns never fails on
    its rows. *)
Theorem get_returns_iff (url : string) (options : value) (net : remote)
  (log log' : list string) (json : value) :
  typeof (given options) = "object" ->
  fetchJSON url (given options) net log = (Returned (result json "ok"), log') ->
  truthy (getPropOpt (given options) "raw") = false ->
  ((exists out, get url options net log = (Returned out, log')) <->
   exists cols0 rows0,
     getPropOpt (getPropOpt json "table") "cols" = VArr cols0 /\
     getPropOpt (getPropOpt json "table") "rows" = VArr rows0 /\
     (cols0 = [] \/ forallb row_readable rows0 = true)) /\
  (forall e l, get url options net log = (Thrown e, l) ->
               e = TypeError /\ l = log').
Proof.
  intros Hobj F Hraw.
  destruct (typeof_object _ Hobj) as [Hnull | Hdef].
  { rewrite Hnull in F. rewrite fetchJSON_null_options in F. discriminate F. }
  destruct (fetchJSON_returns _ _ _ _ _ _ F) as (data & msg & E & Hdata).
  injection E as <- <-.
  destruct Hdata as [[_ Hno] | [(props & ->) [_ Ht]]]; [contradiction|].
  rewrite (get_steps _ _ _ _ Hobj), F.
  cbn [result getPropOpt getProp lookup String.eqb Ascii.eqb Bool.eqb truthy].
  rewrite Hraw.
  change (match lookup "table" props with
          | Some x => Returned x
          | None => Returned VUndefined
          end) with (getProp (VObj props) "table") in *.
  rewrite (normalize_outcome (VObj props) _ eq_refl Hdef Ht).
  destruct (getPropOpt (getPropOpt (VObj props) "table") "cols")
    as [| | | | |cols0|] eqn:Hc;
    try (split; [split; [intros (out & [=]) | intros (c & r & [=] & _)]
                | intros e l [= <- <-]; now split]).
  destruct (getPropOpt (getPropOpt (VObj props) "table") "rows")
    as [| | | | |rows0|] eqn:Hr;
    try (split; [split; [intros (out & [=]) | intros (c & r & _ & [=] & _)]
                | intros e l [= <- <-]; now split]).
  unfold mapi.
  destruct (mapi_from _ 0%nat rows0) as [rows|e0] eqn:Hm.
  - split; [|discriminate]. split; [|now eexists].
    intros _. exists cols0, rows0. repeat split.
    destruct cols0 as [|col cols0]; [now left|]. right.
    apply forallb_forall. intros row Hin.
    destruct (row_readable row) eqn:Hrow; [reflexivity|].
    apply In_nth_error in Hin. destruct Hin as (k & Hk).
    destruct (mapi_from_returned _ _ _ _ Hm) as [_ Hnth].
    destruct (Hnth k row Hk) as (r & _ & Hrow').
    rewrite (proj2 (normalize_row_outcome _ row)) in Hrow';
      [discriminate | discriminate | exact Hrow].
  - destruct (mapi_from_thrown _ _ _ _ Hm) as (row & k & Hin & Hrow).
    assert (Hbad : imap column (cols0) <> [] /\ row_readable row = false).
    { destruct (row_readable row) eqn:R.
      - destruct (proj1 (normalize_row_outcome (imap column cols0) row)
                    (or_intror R)) as (r & Hr').
        rewrite Hr' in Hrow. discriminate.
      - split; [|reflexivity]. intros Hnil.
        destruct (proj1 (normalize_row_outcome (imap column cols0) row)
                    (or_introl Hnil)) as (r & Hr').
        rewrite Hr' in Hrow. discriminate. }
    destruct Hbad as [Hne Hun].
    rewrite (proj2 (normalize_row_outcome _ row) Hne Hun) in Hrow.
    injection Hrow as <-.
    split; [|intros e l [= <- <-]; now split].
    split; [intros (out & [=])|].
    intros (c & r & [= <-] & [= <-] & [-> | Hall]).
    + now elim Hne.
    + rewrite forallb_forall in Hall. rewrite (Hall row Hin) in Hun.
      discriminate.
Qed.

Lemma get_returns_iff_witness :
  exists json,
    ((exists out,
        get Samples.sheet VUndefined (Samples.serving Samples.people) []
          = (Returned out, [Samples.people_request])) <->
     exists cols0 rows0,
       getPropOpt (getPropOpt json "table") "cols" = VArr cols0 /\
       getPropOpt (getPropOpt json "table") "rows" = VArr rows0 /\
       (cols0 = [] \/ forallb row_readable rows0 = true)) /\
    (forall e l,
       get Samples.sheet VUndefined (Samples.serving Samples.people) []
         = (Thrown e, l) ->
       e = TypeError /\ l = [Samples.people_request]).
Proof.
  destruct (JSON.parse (extract Samples.people)) as [json|] eqn:E;
    [|vm_compute in E; discriminate E].
  exists json.
  apply (get_returns_iff Samples.sheet VUndefined (Samples.serving Samples.people)).
  - reflexivity.
  - vm_compute in E. injection E as <-. vm_compute. reflexivity.
  - reflexivity.
Defined.

(** X7: every column of a normalized result is an object with exactly the
    properties label, columnId and type, and its label is never empty or
    otherwise falsy. *)
Theorem get_columns_labelled (url : string) (options : value) (net : remote)
  (log log' : list string) (out : value) :
  get url options net log = (Returned out, log') ->
  truthy (getPropOpt (given options) "raw") = false ->
  getPropOpt out "msg" = VStr "ok" ->
  exists cols,
    getPropOpt out "cols" = VArr cols /\
    Forall (fun col =>
              exists label id type,
                col = VObj [("label", label); ("columnId", id); ("type", type)] /\
                truthy label = true) cols.
Proof.
  intros Hget Hraw Hmsg.
  destruct (get_normalized_inv _ _ _ _ _ _ Hget Hraw Hmsg)
    as (json & cols0 & rows0 & rows & _ & _ & _ & _ & ->).
  eexists. split; [reflexivity|].
  apply imap_from_forall. intros col k. unfold column.
  eexists _, _, _. split; [reflexivity|].
  destruct (truthy (getPropOpt col "label")) eqn:T; [exact T | reflexivity].
Qed.

Lemma get_columns_labelled_witness :
  exists cols,
    getPropOpt Samples.people_table "cols" = VArr cols /\
    Forall (fun col =>
              exists label id type,
                col = VObj [("label", label); ("columnId", id); ("type", type)] /\
                truthy label = true) cols.
Proof.
  apply (get_columns_labelled Samples.sheet VUndefined
           (Samples.serving Samples.people) [] [Samples.people_request]).
  - vm_compute. reflexivity.
  - reflexivity.
  - reflexivity.
Defined.

End NormalizeMore.

(** ** From [get] to the table builder *)

Module PipelineFacts.
Import JS Net Gsheety Notions Text FetchFacts GetFacts NormalizeFacts TableFacts.




(** X9: every other result of [get] is refused by the builder with the
    invalid-data error: a raw result (it has no rows), and a result whose
    message is not ok. *)
Theorem table_of_failed_get (url : string) (options : value) (net : remote)
  (log log' : list string) (out : value) (topts : table_options) :
  get url options net log = (Returned out, log') ->
  truthy (getPropOpt (given options) "raw") = true \/
    getPropOpt out "msg" <> VStr "ok" ->
  generateTableFromOutput out topts
    = Thrown (Error "Given data parameter is not valid or available.").
Proof.
  intros Hget Hcase.
  assert (Hobj : typeof (given options) = "object").
  { destruct (String.eqb (typeof (given options)) "object") eqn:E.
    - now apply String.eqb_eq.
    - unfold get in Hget. fold (given options) in Hget. rewrite E in Hget.
      discriminate Hget. }
  rewrite (get_steps _ _ _ _ Hobj) in Hget.
  destruct (fetchJSON url (given options) net log) as [[res|e] l] eqn:F;
    [|discriminate].
  destruct (typeof_object _ Hobj) as [Hnull | Hdef].
  { rewrite Hnull in F. rewrite fetchJSON_null_options in F. discriminate F. }
  destruct (fetchJSON_returns _ _ _ _ _ _ F)
    as (data & msg & -> & [[-> Hno] | [(props & ->) [-> Ht]]]).
  - cbn in Hget. injection Hget as <- _.
    unfold generateTableFromOutput, invalid_data. cbn.
    destruct (String.eqb_spec msg "ok") as [-> | _]; [contradiction|].
    reflexivity.
  - cbn [result getPropOpt getProp lookup String.eqb Ascii.eqb Bool.eqb truthy]
      in Hget.
    destruct (truthy (getPropOpt (given options) "raw")) eqn:Hraw.
    + injection Hget as <- _. reflexivity.
    + destruct Hcase as [? | Hmsg]; [discriminate|].
      injection Hget as Hn _.
      change (match lookup "table" props with
              | Some x => Returned x
              | None => Returned VUndefined
              end) with (getProp (VObj props) "table") in Ht.
      rewrite (NormalizeMore.normalize_outcome (VObj props) _ eq_refl Hdef Ht)
        in Hn.
      destruct (getPropOpt _ "cols"); try discriminate Hn.
      destruct (getPropOpt _ "rows"); try discriminate Hn.
      destruct (mapi _ _); [|discriminate Hn].
      injection Hn as <-. now elim Hmsg.
Qed.

Lemma table_of_failed_get_witness :
  generateTableFromOutput
    (VObj [("cols", VArr []); ("rows", VArr []);
           ("msg", VStr "HTTP Error 404: Not Found")])
    (TableOptions VUndefined None None)
    = Thrown (Error "Given data parameter is not valid or available.").
Proof.
  apply (table_of_failed_get Samples.sheet VUndefined (failing 404 "Not Found")
           [] [Samples.people_request]).
  - vm_compute. reflexivity.
  - right. discriminate.
Defined.

End PipelineFacts.

(** ** [getExportedData]: every way out *)

Module ExportMore.
Import JS Net Gsheety Notions Text.

Lemma lookup_absent (k : string) (props : list (string * value)) :
  ~ In k (map fst props) -> lookup k props = None.
Proof.
  induction props as [|[k' v] props IH]; simpl; [reflexivity|].
  intros H. destruct (String.eqb_spec k' k) as [-> | _].
  - elim H. now left.
  - apply IH. intros Hin. apply H. now right.
Qed.

Lemma assoc_absent (k : string) (table : list (string * string)) :
  ~ In k (map fst table) -> assoc k table = None.
Proof.
  induction table as [|[k' v] table IH]; simpl; [reflexivity|].
  intros H. destruct (String.eqb_spec k' k) as [-> | _].
  - elim H. now left.
  - apply IH. intros Hin. apply H. now right.
Qed.

Lemma getExportedData_steps (url : string) (type : value) (net : remote)
  (log : list string) :
  getExportedData url type net log =
    if member_truthy (formats_get (with_default type (VStr "csv"))) then
      match parseURL url with
      | Thrown e => (Thrown e, log)
      | Returned base =>
          (match net (export_request base type) with
           | None => Thrown FetchFailed
           | Some res =>
               if ok res then
                 Returned
                   (if is_string "pdf" (with_default type (VStr "csv"))
                       || is_string "xlsx" (with_default type (VStr "csv"))
                    then Blob (body res) else Text (body res))
               else Thrown (Error (http_error res))
           end, (log ++ [export_request base type])%list)
      end
    else (Thrown UnsupportedFormat, log).
Proof.
  unfold getExportedData, export_request, bind, lift, fetch, throw, ret.
  destruct (member_truthy _); [|reflexivity]. change (negb true) with false.
  cbv iota beta.
  destruct (parseURL url) as [base|]; [|reflexivity].
  destruct (net _) as [res|]; [|reflexivity].
  destruct (ok res); [|reflexivity]. change (negb true) with false. cbv iota.
  now destruct (_ || _).
Qed.

(** X11: when [getExportedData] returns, it has issued exactly one request,
    the answer had a success status, and the result is the body of that
    answer, untouched: a blob exactly when the type is the string pdf or
    xlsx, text in every other case. *)
Theorem getExportedData_returned (url : string) (type : value) (net : remote)
  (log log' : list string) (x : exported) :
  getExportedData url type net log = (Returned x, log') ->
  exists base res,
    parseURL url = Returned base /\
    log' = (log ++ [export_request base type])%list /\
    net (export_request base type) = Some res /\
    ok res = true /\
    ((type = VStr "pdf" \/ type = VStr "xlsx") /\ x = Blob (body res) \/
     type <> VStr "pdf" /\ type <> VStr "xlsx" /\ x = Text (body res)).
Proof.
  rewrite getExportedData_steps.
  destruct (member_truthy _); [|discriminate].
  destruct (parseURL url) as [base|]; [|discriminate].
  destruct (net (export_request base type)) as [res|] eqn:Hnet; [|discriminate].
  destruct (ok res) eqn:Hok; [|discriminate].
  intros H. exists base, res. repeat split; try assumption.
  - now injection H.
  - destruct type as [| | | |s| |];
      try (right; repeat split; try discriminate;
           cbn in H; now injection H).
    cbn [with_default is_string] in H.
    destruct (String.eqb_spec s "pdf") as [-> | Hp].
    + left. split; [now left|]. cbn in H. now injection H.
    + destruct (String.eqb_spec s "xlsx") as [-> | Hx].
      * left. split; [now right|]. cbn in H. now injection H.
      * right. cbn in H. injection H as <- _.
        repeat split; intros [= ->]; contradiction.
Qed.

Lemma getExportedData_returned_witness :
  exists base res,
    parseURL Samples.sheet = Returned base /\
    ["https://docs.google.com/spreadsheets/d/1X50-csrdsKDLxXIotiW3jZtccu_hE2qOR7WKzDxhdK4/export?format=csv"]
      = ([] ++ [export_request base VUndefined])%list /\
    Samples.serving "Name,Age" (export_request base VUndefined) = Some res /\
    ok res = true /\
    ((VUndefined = VStr "pdf" \/ VUndefined = VStr "xlsx") /\
       Text "Name,Age" = Blob (body res) \/
     VUndefined <> VStr "pdf" /\ VUndefined <> VStr "xlsx" /\
       Text "Name,Age" = Text (body res)).
Proof.
  apply (getExportedData_returned Samples.sheet VUndefined
           (Samples.serving "Name,Age") []).
  vm_compute. reflexivity.
Defined.



(** X13: a type whose name is neither one of the four formats nor a name
    every object inherits is refused with the unsupported-format error
    before anything is requested, and before the link is even looked at. *)
Theorem getExportedData_unknown_name (url t : string) (net : remote)
  (log : list string) :
  ~ In t ["csv"; "tsv"; "pdf"; "xlsx"] ->
  ~ In t ["constructor"; "__defineGetter__"; "__defineSetter__";
          "hasOwnProperty"; "__lookupGetter__"; "__lookupSetter__";
          "isPrototypeOf"; "propertyIsEnumerable"; "toString"; "valueOf";
          "__proto__"; "toLocaleString"] ->
  getExportedData url (VStr t) net log
    = (Thrown (Error "Unsupported format. Use: csv, tsv, pdf, or xlsx."), log).
Proof.
  intros Hf Hp. unfold getExportedData, formats_get.
  cbn [with_default ToString].
  rewrite (lookup_absent t formats Hf), (assoc_absent t Object_prototype Hp).
  reflexivity.
Qed.

Lemma getExportedData_unknown_name_witness :
  run (getExportedData "not a link" (VStr "bogus")) (Samples.serving "")
    = (Thrown (Error "Unsupported format. Use: csv, tsv, pdf, or xlsx."), []).
Proof.
  apply (getExportedData_unknown_name "not a link" "bogus");
    simpl; intros H;
    repeat (destruct H as [H | H]; [discriminate H|]); exact H.
Defined.

(** X14: the format is looked up by name but the blob test compares the
    type itself: a type that is not a string and merely converts to a
    format name (a one-element array, say) gets that format's export, and
    gets it as text even for pdf and xlsx. *)
Theorem getExportedData_converted_type (url base t : string) (type : value)
  (net : remote) (log : list string) (res : response) :
  (forall s, type <> VStr s) -> type <> VUndefined ->
  ToString type = t -> In t ["csv"; "tsv"; "pdf"; "xlsx"] ->
  parseURL url = Returned base ->
  net (base ++ "/export?format=" ++ t) = Some res -> ok res = true ->
  getExportedData url type net log
    = (Returned (Text (body res)),
       (log ++ [(base ++ "/export?format=" ++ t)%string])%list).
Proof.
  intros Hns Hnu Hts Ht Hurl Hnet Hok.
  assert (Hwd : with_default type (VStr "csv") = type)
    by (destruct type; try reflexivity; contradiction).
  assert (Hstr : forall s, is_string s type = false)
    by (intros s; destruct type; try reflexivity; now elim (Hns s0)).
  unfold getExportedData, formats_get, bind, lift, fetch, throw, ret.
  rewrite Hwd, Hts, !Hstr. simpl in Ht.
  destruct Ht as [<- | [<- | [<- | [<- | []]]]]; cbn; rewrite Hurl;
    cbn in Hnet; rewrite Hnet, Hok; reflexivity.
Qed.

Lemma getExportedData_converted_type_witness :
  run (getExportedData Samples.sheet (VArr [VStr "xlsx"])) (Samples.serving "PK")
    = (Returned (Text "PK"),
       ["https://docs.google.com/spreadsheets/d/1X50-csrdsKDLxXIotiW3jZtccu_hE2qOR7WKzDxhdK4/export?format=xlsx"]).
Proof.
  apply (getExportedData_converted_type Samples.sheet
           "https://docs.google.com/spreadsheets/d/1X50-csrdsKDLxXIotiW3jZtccu_hE2qOR7WKzDxhdK4"
           "xlsx" (VArr [VStr "xlsx"]) (Samples.serving "PK") []
           (Response true 200 "OK" "PK"));
    try reflexivity; try discriminate.
  simpl. tauto.
Defined.

End ExportMore.

(** ** Resolved links and request URLs *)

Module LinkFacts.
Import JS Net Gsheety Notions Text ParseURLFacts.

(** X15: whatever path, query or nothing at all follows the canonical URL,
    the link resolves to that canonical URL; so every share-link variant of
    a sheet, and every URL the class itself requests, leads back to the same
    sheet. *)
Theorem parseURL_absorbs_suffix (url base rest : string) :
  parseURL url = Returned base ->
  at_boundary rest ->
  parseURL (base ++ rest) = Returned base.
Proof.
  unfold parseURL. intros H Hb.
  destruct (regex_match url) as [id|] eqn:E; [|discriminate].
  injection H as <-.
  destruct (regex_match_some _ _ E) as (_ & _ & _ & Hne & Hno & _).
  assert (M : regex_match (canonical id ++ rest) = Some id).
  { unfold canonical. cbn. rewrite (take_non_slash_app id rest Hno Hb).
    destruct id; [contradiction | reflexivity]. }
  now rewrite M.
Qed.

Lemma parseURL_absorbs_suffix_witness :
  parseURL
    ("https://docs.google.com/spreadsheets/d/1X50-csrdsKDLxXIotiW3jZtccu_hE2qOR7WKzDxhdK4"
     ++ "/gviz/tq?sheet=Sheet1&tq=SELECT%20*")
    = Returned "https://docs.google.com/spreadsheets/d/1X50-csrdsKDLxXIotiW3jZtccu_hE2qOR7WKzDxhdK4".
Proof.
  apply (parseURL_absorbs_suffix Samples.sheet).
  - reflexivity.
  - right. now eexists.
Defined.

Lemma nat_of_ascii_bound (c : ascii) : (nat_of_ascii c < 256)%nat.
Proof.
  destruct c as [[] [] [] [] [] [] [] []]; vm_compute; lia.
Qed.

Lemma hex_digit_unreserved (k : nat) :
  (k < 16)%nat -> is_unreserved (hex_digit k) = true.
Proof.
  intros H. do 16 (destruct k as [|k]; [reflexivity|]). lia.
Qed.

Lemma percent_encode_clean (c : ascii) (s : string) :
  is_unreserved c = false -> c <> "%"%char ->
  has_char c (percent_encode s) = false.
Proof.
  intros Hc Hp. induction s as [|a s IH]; [reflexivity|].
  assert (Hne : forall x, is_unreserved x = true -> Ascii.eqb x c = false).
  { intros x Hx. apply Ascii.eqb_neq. intros ->. congruence. }
  cbn [percent_encode].
  destruct (is_unreserved a) eqn:Ha; cbn [has_char].
  - now rewrite (Hne a Ha), IH.
  - pose proof (nat_of_ascii_bound a) as Hb.
    rewrite (Hne (hex_digit (nat_of_ascii a / 16))),
            (Hne (hex_digit (nat_of_ascii a mod 16))), IH.
    + assert (Ascii.eqb "%" c = false) as ->; [|reflexivity].
      apply Ascii.eqb_neq. congruence.
    + apply hex_digit_unreserved. apply Nat.mod_upper_bound. lia.
    + apply hex_digit_unreserved. apply Nat.Div0.div_lt_upper_bound. lia.
Qed.

(** X16: the sheet name and the query travel as data only.  Whatever the
    options hold, the request is the resolved link followed by
    [/gviz/tq?sheet=S&tq=Q], where neither [S] nor [Q] contains an
    ampersand, an equals sign, a question mark, a hash, a slash, a plus, a
    space or a quotation mark: nothing in them can end the parameter or add
    another one. *)
Theorem gviz_request_parameters (base : string) (options : value) :
  exists S Q,
    gviz_request base options = base ++ "/gviz/tq?sheet=" ++ S ++ "&tq=" ++ Q /\
    forall c, In c ["&"; "="; "?"; "#"; "/"; "+"; " "; "034"]%char ->
              has_char c S = false /\ has_char c Q = false.
Proof.
  unfold gviz_request, query_url, encodeURIComponent.
  eexists _, _. split; [reflexivity|].
  intros c Hc.
  assert (Hun : is_unreserved c = false /\ c <> "%"%char).
  { simpl in Hc.
    repeat (destruct Hc as [<- | Hc]; [split; [reflexivity | discriminate]|]).
    contradiction. }
  destruct Hun as [Hu Hp].
  split; now apply percent_encode_clean.
Qed.

End LinkFacts.

(** ** [generateTableFromOutput]: when it returns *)

Module TableMore.
Import JS Gsheety Notions FetchFacts TableFacts.






End TableMore.

(** ** The earlier versions of [get] *)

Module VersionMore.
Import JS Net Notions FetchFacts VersionFacts.

Lemma mapi_from_forall2 {A B} (g : A -> outcome B) (i : nat) (xs : list A)
  (ys : list B) :
  mapi_from (fun x _ => g x) i xs = Returned ys <->
  Forall2 (fun x y => g x = Returned y) xs ys.
Proof.
  revert i ys. induction xs as [|x xs IH]; intros i ys; simpl.
  - split; [intros [= <-]; constructor | intros H; now inversion H].
  - split.
    + destruct (g x) as [y|] eqn:G; [|discriminate]. cbn [obind].
      destruct (mapi_from _ (S i) xs) as [ys'|] eqn:M; [|discriminate].
      intros [= <-]. constructor; [exact G | now apply (IH (S i))].
    + intros H. inversion H as [|x' y xs' ys' G T]; subst.
      rewrite G. cbn [obind]. now rewrite (proj2 (IH (S i) ys') T).
Qed.

Lemma row_cells_returned (row : value) (r : list value) :
  GsheetySrc.row_cells row = Returned r <->
  exists cells,
    getPropOpt row "c" = VArr cells /\ r = map GsheetySrc.cell_value cells.
Proof.
  unfold GsheetySrc.row_cells. split.
  - destruct (is_nullish row) eqn:Hr.
    + now rewrite (getProp_nullish _ _ Hr).
    + rewrite (getProp_defined _ _ Hr). cbn [obind].
      destruct (getPropOpt row "c"); try discriminate.
      intros [= <-]. now eexists.
  - intros (cells & Hc & ->).
    assert (Hr : is_nullish row = false)
      by (destruct row; try reflexivity; discriminate Hc).
    now rewrite (getProp_defined _ _ Hr), Hc.
Qed.

(** X18: the [get] of [dist/gsheety.js], on a fetched payload: one entry
    per raw column, an object with the column's label and type or [null]
    for a missing column; one row per raw row, with one value per cell the
    raw row holds (rows are not padded to the column count); and no [msg]
    in the result. *)
Theorem dist_get_normalizes (url : string) (options : value) (net : remote)
  (log log' : list string) (res d : value) :
  typeof (given options) = "object" ->
  Gsheety.fetchJSON url (given options) net log = (Returned res, log') ->
  truthy (getPropOpt res "data") = true ->
  truthy (getPropOpt (given options) "raw") = false ->
  GsheetyDist.get url options net log = (Returned d, log') ->
  exists cols0 rows0 rows,
    getPropOpt (getPropOpt (getPropOpt res "data") "table") "cols" = VArr cols0 /\
    getPropOpt (getPropOpt (getPropOpt res "data") "table") "rows" = VArr rows0 /\
    d = VObj [("cols",
               VArr (map (fun col =>
                            if truthy col
                            then VObj [("label", getPropOpt col "label");
                                       ("type", getPropOpt col "type")]
                            else VNull) cols0));
              ("rows", VArr (map VArr rows))] /\
    getPropOpt d "msg" = VUndefined /\
    Forall2
      (fun row r =>
         exists cells,
           getPropOpt row "c" = VArr cells /\
           r = map (fun cell => if truthy cell then getPropOpt cell "v" else VNull)
                   cells)
      rows0 rows.
Proof.
  intros Hobj F Hdata Hraw Hget.
  rewrite (dist_get_steps _ _ _ _ Hobj), F, Hdata, Hraw in Hget.
  injection Hget as Hn.
  destruct (fetchJSON_returns _ _ _ _ _ _ F)
    as (data & msg & -> & [[-> _] | [(props & ->) [-> Ht]]]);
    [discriminate Hdata|].
  unfold GsheetyDist.normalize in Hn.
  cbn [Gsheety.result getProp getPropOpt lookup String.eqb Ascii.eqb Bool.eqb
       obind] in *.
  change (match lookup "table" props with
          | Some x => Returned x
          | None => Returned VUndefined
          end) with (getProp (VObj props) "table") in Hn.
  rewrite (getProp_defined (VObj props) "table" eq_refl) in Hn.
  cbn [obind] in Hn.
  rewrite !(getProp_defined _ _ (truthy_defined _ Ht)) in Hn. cbn [obind] in Hn.
  destruct (getPropOpt (getPropOpt (VObj props) "table") "cols")
    as [| | | | |cols0|]; try discriminate Hn.
  destruct (getPropOpt (getPropOpt (VObj props) "table") "rows")
    as [| | | | |rows0|]; try discriminate Hn.
  cbn [asArray obind] in Hn. unfold mapi in Hn.
  destruct (mapi_from _ 0%nat rows0) as [rows|] eqn:Hm; [|discriminate Hn].
  injection Hn as <-.
  exists cols0, rows0, rows. repeat split.
  apply mapi_from_forall2 in Hm.
  eapply Forall2_impl; [|exact Hm].
  intros row r Hrow. now apply row_cells_returned in Hrow.
Qed.

Lemma dist_get_normalizes_witness :
  exists res d,
    Gsheety.fetchJSON Samples.sheet (given VUndefined)
        (Samples.serving Samples.people) []
      = (Returned res, [Samples.people_request]) /\
    GsheetyDist.get Samples.sheet VUndefined (Samples.serving Samples.people) []
      = (Returned d, [Samples.people_request]) /\
    exists cols0 rows0 rows,
      getPropOpt (getPropOpt (getPropOpt res "data") "table") "cols" = VArr cols0 /\
      getPropOpt (getPropOpt (getPropOpt res "data") "table") "rows" = VArr rows0 /\
      d = VObj [("cols",
                 VArr (map (fun col =>
                              if truthy col
                              then VObj [("label", getPropOpt col "label");
                                         ("type", getPropOpt col "type")]
                              else VNull) cols0));
                ("rows", VArr (map VArr rows))] /\
      getPropOpt d "msg" = VUndefined /\
      Forall2
        (fun row r =>
           exists cells,
             getPropOpt row "c" = VArr cells /\
             r = map (fun cell => if truthy cell then getPropOpt cell "v" else VNull)
                     cells)
        rows0 rows.
Proof.
  destruct (GsheetyDist.get Samples.sheet VUndefined
              (Samples.serving Samples.people) []) as [[d|] l] eqn:G;
    [|vm_compute in G; discriminate G].
  assert (Hl : l = [Samples.people_request])
    by (vm_compute in G; now injection G).
  subst l.
  destruct (Gsheety.fetchJSON Samples.sheet (given VUndefined)
              (Samples.serving Samples.people) []) as [[res|] l] eqn:F;
    [|vm_compute in F; discriminate F].
  assert (Hl : l = [Samples.people_request])
    by (vm_compute in F; now injection F).
  subst l.
  exists res, d. split; [reflexivity|]. split; [reflexivity|].
  apply (dist_get_normalizes Samples.sheet VUndefined
           (Samples.serving Samples.people) [] [Samples.people_request] res d);
    try reflexivity; try assumption.
  vm_compute in F. injection F as <-. reflexivity.
Defined.

(** X19: the [get] of [src/gsheety.js] is the [get] of [dist/gsheety.js]
    with the [null] columns dropped, the [null] cells dropped from every
    row, and the fetch's message added; and it throws whenever the other
    throws, with the same error. *)
Theorem src_get_filters_dist_get (url : string) (options : value) (net : remote)
  (log log' : list string) (res : value) :
  typeof (given options) = "object" ->
  Gsheety.fetchJSON url (given options) net log = (Returned res, log') ->
  truthy (getPropOpt res "data") = true ->
  truthy (getPropOpt (given options) "raw") = false ->
  (forall e,
     GsheetyDist.get url options net log = (Thrown e, log') ->
     GsheetySrc.get url options net log = (Thrown e, log')) /\
  (forall d,
     GsheetyDist.get url options net log = (Returned d, log') ->
     exists cols rows,
       d = VObj [("cols", VArr cols); ("rows", VArr (map VArr rows))] /\
       GsheetySrc.get url options net log
         = (Returned
              (VObj [("cols", VArr (filter not_null cols));
                     ("rows", VArr (map VArr (map (filter not_null) rows)));
                     ("msg", getPropOpt res "msg")]),
            log')).
Proof.
  intros Hobj F Hdata Hraw.
  rewrite (dist_get_steps _ _ _ _ Hobj), (src_get_steps _ _ _ _ Hobj),
    F, Hdata, Hraw.
  destruct (fetchJSON_returns _ _ _ _ _ _ F) as (data & msg & -> & _).
  unfold GsheetyDist.normalize, GsheetySrc.normalize.
  cbn [Gsheety.result getProp getPropOpt lookup String.eqb Ascii.eqb Bool.eqb
       obind].
  destruct (getProp data "table") as [table|];
    [|split; [intros ? H; exact H | discriminate]]. cbn [obind].
  destruct (getProp table "cols") as [cols0|];
    [|split; [intros ? H; exact H | discriminate]]. cbn [obind].
  destruct (asArray cols0) as [cols1|];
    [|split; [intros ? H; exact H | discriminate]]. cbn [obind].
  destruct (getProp table "rows") as [rows0|];
    [|split; [intros ? H; exact H | discriminate]]. cbn [obind].
  destruct (asArray rows0) as [rows1|];
    [|split; [intros ? H; exact H | discriminate]]. cbn [obind].
  destruct (mapi _ rows1) as [rows|];
    [|split; [intros ? H; exact H | discriminate]]. cbn [obind].
  split; [discriminate|]. intros d [= <-]. now eexists _, _.
Qed.

Lemma src_get_filters_dist_get_witness :
  exists res,
    (forall e,
       GsheetyDist.get Samples.sheet VUndefined (Samples.serving Samples.people) []
         = (Thrown e, [Samples.people_request]) ->
       GsheetySrc.get Samples.sheet VUndefined (Samples.serving Samples.people) []
         = (Thrown e, [Samples.people_request])) /\
    (forall d,
       GsheetyDist.get Samples.sheet VUndefined (Samples.serving Samples.people) []
         = (Returned d, [Samples.people_request]) ->
       exists cols rows,
         d = VObj [("cols", VArr cols); ("rows", VArr (map VArr rows))] /\
         GsheetySrc.get Samples.sheet VUndefined (Samples.serving Samples.people) []
           = (Returned
                (VObj [("cols", VArr (filter not_null cols));
                       ("rows", VArr (map VArr (map (filter not_null) rows)));
                       ("msg", getPropOpt res "msg")]),
              [Samples.people_request])).
Proof.
  destruct (Gsheety.fetchJSON Samples.sheet (given VUndefined)
              (Samples.serving Samples.people) []) as [[res|] l] eqn:F;
    [|vm_compute in F; discriminate F].
  assert (Hl : l = [Samples.people_request])
    by (vm_compute in F; now injection F).
  subst l. exists res.
  apply (src_get_filters_dist_get Samples.sheet VUndefined
           (Samples.serving Samples.people) [] [Samples.people_request] res);
    try reflexivity; try exact F.
  vm_compute in F. injection F as <-. reflexivity.
Defined.

End VersionMore.

(** ** clearNull and the older always-filtering [get] *)

Module CompareFacts.
Import JS Net Notions FetchFacts GetFacts NormalizeFacts VersionFacts VersionMore.

Lemma mapi_from_pure {A B} (f : A -> nat -> outcome B) (h : nat -> B) (i : nat)
  (xs : list A) :
  (forall x k, f x k = Returned (h k)) ->
  mapi_from f i xs = Returned (map h (seq i (List.length xs))).
Proof.
  intros Hf. revert i. induction xs as [|x xs IH]; intros i; simpl;
    [reflexivity|].
  now rewrite Hf, IH.
Qed.

Lemma cell_value_of_array (row : value) (cells : list value) (i : nat) :
  getPropOpt row "c" = VArr cells ->
  Gsheety.cell_value row i
    = Returned (GsheetySrc.cell_value (nth i cells VUndefined)).
Proof.
  intros Hc.
  assert (Hr : is_nullish row = false)
    by (destruct row; try reflexivity; discriminate Hc).
  unfold Gsheety.cell_value, GsheetySrc.cell_value.
  rewrite (getProp_defined _ _ Hr), Hc. cbn [obind getIndex].
  destruct (truthy (nth i cells VUndefined)) eqn:T; [|reflexivity].
  now rewrite (getProp_defined _ _ (truthy_defined _ T)).
Qed.

Lemma map_constant {A B} (y : B) (l : list A) :
  map (fun _ => y) l = repeat y (List.length l).
Proof. induction l as [|x l IH]; simpl; [reflexivity | now rewrite IH]. Qed.

Lemma map_nth_seq {A B} (g : A -> B) (d : A) (cells : list A) (n : nat) :
  (List.length cells <= n)%nat ->
  map (fun i => g (nth i cells d)) (seq 0 n)
    = (map g cells ++ repeat (g d) (n - List.length cells))%list.
Proof.
  revert n. induction cells as [|c cells IH]; intros n Hn.
  - simpl. rewrite Nat.sub_0_r.
    transitivity (map (fun _ : nat => g d) (seq 0 n)).
    + apply map_ext. intros [|i]; reflexivity.
    + now rewrite map_constant, length_seq.
  - destruct n as [|n]; [simpl in Hn; lia|].
    simpl in Hn. cbn [seq map nth List.length Nat.sub app]. f_equal.
    rewrite <- seq_shift, map_map. cbn [nth]. apply IH. lia.
Qed.

Lemma filter_repeat_null (k : nat) : filter not_null (repeat VNull k) = [].
Proof. induction k as [|k IH]; simpl; [reflexivity | exact IH]. Qed.

Lemma Forall2_map_r {A B} (P : A -> B -> Prop) (f : A -> B) (xs : list A) :
  Forall (fun x => P x (f x)) xs -> Forall2 P xs (map f xs).
Proof. induction 1; simpl; constructor; assumption. Qed.

(** A row whose [c] is an array no longer than the column list: normalized
    and cleared, it is the row's cell values without the [null]s. *)
Lemma clear_normalized_row (cols : list value) (row : value) (cells : list value) :
  getPropOpt row "c" = VArr cells ->
  (List.length cells <= List.length cols)%nat ->
  exists r,
    Gsheety.normalize_row cols row = Returned r /\
    Gsheety.clear_row r = filter not_null (map GsheetySrc.cell_value cells).
Proof.
  intros Hc Hlen. unfold Gsheety.normalize_row, mapi.
  rewrite (mapi_from_pure _
             (fun i => GsheetySrc.cell_value (nth i cells VUndefined)))
    by (intros _ k; now apply cell_value_of_array).
  eexists. split; [reflexivity|].
  rewrite (map_nth_seq GsheetySrc.cell_value VUndefined cells _ Hlen).
  unfold Gsheety.clear_row. rewrite filter_app.
  change (GsheetySrc.cell_value VUndefined) with VNull.
  now rewrite filter_repeat_null, app_nil_r.
Qed.

(** X20: on a payload whose rows hold no more cells than there are columns,
    the current [get] with clearNull set returns exactly the rows that the
    [get] of [src/gsheety.js], which always filtered, returns. *)
Theorem clearNull_gives_src_rows (url : string) (options : value) (net : remote)
  (log log' : list string) (json : value) (cols0 rows0 : list value) :
  typeof (given options) = "object" ->
  Gsheety.fetchJSON url (given options) net log
    = (Returned (Gsheety.result json "ok"), log') ->
  truthy (getPropOpt (given options) "raw") = false ->
  truthy (getPropOpt (given options) "clearNull") = true ->
  getPropOpt (getPropOpt json "table") "cols" = VArr cols0 ->
  getPropOpt (getPropOpt json "table") "rows" = VArr rows0 ->
  Forall (fun row =>
            exists cells,
              getPropOpt row "c" = VArr cells /\
              (List.length cells <= List.length cols0)%nat) rows0 ->
  exists out outS rows,
    Gsheety.get url options net log = (Returned out, log') /\
    GsheetySrc.get url options net log = (Returned outS, log') /\
    getPropOpt out "rows" = VArr (map VArr rows) /\
    getPropOpt outS "rows" = VArr (map VArr rows).
Proof.
  intros Hobj F Hraw Hclear Hc Hr Hrows.
  destruct (typeof_object _ Hobj) as [Hnull | Hdef].
  { rewrite Hnull in F. rewrite fetchJSON_null_options in F. discriminate F. }
  destruct (fetchJSON_returns _ _ _ _ _ _ F) as (data & msg & E & Hdata).
  injection E as <- <-.
  destruct Hdata as [[_ Hno] | [(props & ->) [_ Ht]]]; [contradiction|].
  set (cols := imap Gsheety.column cols0).
  assert (Hcols : List.length cols = List.length cols0)
    by apply imap_from_length.
  set (full := fun row =>
                 map (fun i => GsheetySrc.cell_value (nth i (cells_of row) VUndefined))
                     (seq 0 (List.length cols))).
  assert (Hcur : mapi (fun row _ => Gsheety.normalize_row cols row) rows0
                 = Returned (map full rows0)).
  { apply mapi_from_forall2, Forall2_map_r.
    eapply Forall_impl; [|exact Hrows]. intros row (cells & Hcell & _).
    unfold Gsheety.normalize_row, mapi, full, cells_of. rewrite Hcell.
    apply mapi_from_pure. intros _ k. now apply cell_value_of_array. }
  assert (Hsrc : mapi (fun row _ => GsheetySrc.row_cells row) rows0
                 = Returned (map (fun row => map GsheetySrc.cell_value (cells_of row))
                                 rows0)).
  { apply mapi_from_forall2, Forall2_map_r.
    eapply Forall_impl; [|exact Hrows]. intros row (cells & Hcell & _).
    apply row_cells_returned. exists cells. split; [exact Hcell|].
    unfold cells_of. now rewrite Hcell. }
  assert (Hsame : map Gsheety.clear_row (map full rows0)
                  = map (filter not_null)
                        (map (fun row => map GsheetySrc.cell_value (cells_of row))
                             rows0)).
  { rewrite !map_map. apply map_ext_in. intros row Hin.
    rewrite Forall_forall in Hrows. destruct (Hrows row Hin) as (cells & Hcell & Hlen).
    unfold full, cells_of. rewrite Hcell.
    rewrite (map_nth_seq GsheetySrc.cell_value VUndefined cells) by lia.
    unfold Gsheety.clear_row. rewrite filter_app.
    change (GsheetySrc.cell_value VUndefined) with VNull.
    now rewrite filter_repeat_null, app_nil_r. }
  eexists _, _, _.
  rewrite (get_steps _ _ _ _ Hobj), (src_get_steps _ _ _ _ Hobj), F.
  cbn [Gsheety.result getPropOpt getProp lookup String.eqb Ascii.eqb Bool.eqb
       truthy].
  rewrite Hraw.
  rewrite (NormalizeMore.normalize_outcome (VObj props) _ eq_refl Hdef Ht).
  rewrite Hc, Hr. fold cols. rewrite Hcur, Hclear.
  unfold GsheetySrc.normalize.
  cbn [Gsheety.result getProp lookup String.eqb Ascii.eqb Bool.eqb obind].
  change (match lookup "table" props with
          | Some x => Returned x
          | None => Returned VUndefined
          end) with (getProp (VObj props) "table").
  rewrite (getProp_defined (VObj props) "table" eq_refl). cbn [obind].
  rewrite !(getProp_defined _ _ (truthy_defined _ Ht)). cbn [obind].
  rewrite Hc, Hr. cbn [asArray obind]. rewrite Hsrc. cbn [obind].
  split; [reflexivity|]. split; [reflexivity|].
  cbn. rewrite Hsame. split; reflexivity.
Qed.

Lemma clearNull_gives_src_rows_witness :
  exists out outS rows,
    Gsheety.get Samples.sheet (VObj [("clearNull", VBool true)])
        (Samples.serving Samples.people) []
      = (Returned out, [Samples.people_request]) /\
    GsheetySrc.get Samples.sheet (VObj [("clearNull", VBool true)])
        (Samples.serving Samples.people) []
      = (Returned outS, [Samples.people_request]) /\
    getPropOpt out "rows" = VArr (map VArr rows) /\
    getPropOpt outS "rows" = VArr (map VArr rows).
Proof.
  destruct (JSON.parse (Gsheety.extract Samples.people)) as [json|] eqn:E;
    [|vm_compute in E; discriminate E].
  destruct (getPropOpt (getPropOpt json "table") "cols") as [| | | | |cols0|] eqn:Hc;
    try (vm_compute in E; injection E as <-; vm_compute in Hc; discriminate Hc).
  destruct (getPropOpt (getPropOpt json "table") "rows") as [| | | | |rows0|] eqn:Hr;
    try (vm_compute in E; injection E as <-; vm_compute in Hr; discriminate Hr).
  apply (clearNull_gives_src_rows Samples.sheet (VObj [("clearNull", VBool true)])
           (Samples.serving Samples.people) [] [Samples.people_request]
           json cols0 rows0); try reflexivity; try assumption.
  - vm_compute in E. injection E as <-. vm_compute. reflexivity.
  - vm_compute in E. injection E as <-.
    vm_compute in Hc. injection Hc as <-.
    vm_compute in Hr. injection Hr as <-.
    repeat constructor; eexists; (split; [reflexivity | simpl; lia]).
Defined.

End CompareFacts.
